(** * Thin-lens camera calculations (camera.py)

    A shallow embedding of [camera.py]: the [Sensor], [Lens] and [Camera]
    classes and the formulas they expose, together with the part of the
    [quantities] package ([pq]) that the module relies on.

    Modelling conventions.
    - A Python float is an exact real number or one of the IEEE special
      values [+inf], [-inf], [nan]: arithmetic on finite values is exact
      (no rounding, no overflow), arithmetic on the special values follows
      IEEE 754 as numpy applies it (division by zero yields an infinity or
      [nan], it does not raise).  There is a single zero, which stands
      for both signed zeros; it behaves as [+0.0] where the sign of a zero
      would show, that is, as a divisor and as an argument of [arctan2].
      Nothing proved below divides by a zero, and [arctan2] is only taken
      at a positive second argument.
    - A [pq.Quantity] is a magnitude together with a dimensionality, the
      exponent of every unit the module mentions.
    - A method that can raise returns [exn + A]. *)

From Stdlib Require Import Reals Lra Lia ZArith String List Bool.
Import ListNotations.
Open Scope R_scope.

(** ** Python floats *)

Inductive pyfloat : Type :=
| Fin (r : R)
| PInf
| NInf
| NaN.

Inductive sign : Type := Neg | Zero | Pos.

Definition Rsign (r : R) : sign :=
  match total_order_T r 0 with
  | inleft (left _) => Neg
  | inleft (right _) => Zero
  | inright _ => Pos
  end.

Definition sign_opp (s : sign) : sign :=
  match s with Neg => Pos | Zero => Zero | Pos => Neg end.

(** [inf * x] for a finite [x] of sign [s]. *)
Definition inf_of (s : sign) : pyfloat :=
  match s with Pos => PInf | Neg => NInf | Zero => NaN end.

Definition fneg (x : pyfloat) : pyfloat :=
  match x with
  | Fin a => Fin (- a)
  | PInf => NInf
  | NInf => PInf
  | NaN => NaN
  end.

Definition fadd (x y : pyfloat) : pyfloat :=
  match x, y with
  | NaN, _ | _, NaN => NaN
  | Fin a, Fin b => Fin (a + b)
  | PInf, NInf | NInf, PInf => NaN
  | PInf, _ | _, PInf => PInf
  | NInf, _ | _, NInf => NInf
  end.

Definition fsub (x y : pyfloat) : pyfloat := fadd x (fneg y).

Definition fmul (x y : pyfloat) : pyfloat :=
  match x, y with
  | NaN, _ | _, NaN => NaN
  | Fin a, Fin b => Fin (a * b)
  | Fin a, PInf | PInf, Fin a => inf_of (Rsign a)
  | Fin a, NInf | NInf, Fin a => inf_of (sign_opp (Rsign a))
  | PInf, PInf | NInf, NInf => PInf
  | PInf, NInf | NInf, PInf => NInf
  end.

(** [x / y].  A zero divisor is read as [+0.0]; numpy returns the
    opposite infinity for [-0.0], which the single zero cannot tell apart. *)
Definition fdiv (x y : pyfloat) : pyfloat :=
  match x, y with
  | NaN, _ | _, NaN => NaN
  | Fin a, Fin b =>
      match Rsign b with
      | Zero => inf_of (Rsign a)
      | _ => Fin (a / b)
      end
  | Fin _, PInf | Fin _, NInf => Fin 0
  | PInf, Fin b => match Rsign b with Neg => NInf | _ => PInf end
  | NInf, Fin b => match Rsign b with Neg => PInf | _ => NInf end
  | _, _ => NaN
  end.

(** [x > y]; any comparison with [nan] is false. *)
Definition fgt (x y : pyfloat) : bool :=
  match x, y with
  | NaN, _ | _, NaN => false
  | Fin a, Fin b => if Rlt_dec b a then true else false
  | PInf, PInf => false
  | PInf, _ => true
  | _, PInf => false
  | NInf, _ => false
  | Fin _, NInf => true
  end.

Definition flt (x y : pyfloat) : bool := fgt y x.

(** [math.atan2] on reals. *)
Definition Ratan2 (y x : R) : R :=
  match Rsign x with
  | Pos => atan (y / x)
  | Neg => match Rsign y with
           | Neg => atan (y / x) - PI
           | _ => atan (y / x) + PI
           end
  | Zero => match Rsign y with
            | Pos => PI / 2
            | Neg => - (PI / 2)
            | Zero => 0
            end
  end.

(** [numpy.arctan2] *)
Definition farctan2 (y x : pyfloat) : pyfloat :=
  match y, x with
  | NaN, _ | _, NaN => NaN
  | Fin a, Fin b => Fin (Ratan2 a b)
  | Fin a, PInf => Fin 0
  | Fin a, NInf => match Rsign a with Neg => Fin (- PI) | _ => Fin PI end
  | PInf, Fin _ => Fin (PI / 2)
  | NInf, Fin _ => Fin (- (PI / 2))
  | PInf, PInf => Fin (PI / 4)
  | PInf, NInf => Fin (3 * PI / 4)
  | NInf, PInf => Fin (- (PI / 4))
  | NInf, NInf => Fin (- (3 * PI / 4))
  end.

(** [numpy.hypot]: an infinite argument wins over [nan]. *)
Definition fhypot (x y : pyfloat) : pyfloat :=
  match x, y with
  | PInf, _ | NInf, _ | _, PInf | _, NInf => PInf
  | NaN, _ | _, NaN => NaN
  | Fin a, Fin b => Fin (sqrt (a * a + b * b))
  end.

(** [numpy.tan]: the tangent of an infinity is [nan]. *)
Definition ftan (x : pyfloat) : pyfloat :=
  match x with
  | Fin a => Fin (tan a)
  | _ => NaN
  end.

(** [x == y]; [nan] equals nothing. *)
Definition feq (x y : pyfloat) : bool :=
  match x, y with
  | Fin a, Fin b => if Req_dec_T a b then true else false
  | PInf, PInf | NInf, NInf => true
  | _, _ => false
  end.

(** [float("inf")] *)
Definition INF : pyfloat := PInf.

(** ** Exceptions *)

Inductive exn : Type :=
| NameError (name : string)
| AssertionError
| ValueError
| Raised (cls : string) (args : list string).

Definition result (A : Type) : Type := (exn + A)%type.

Definition ok {A : Type} (a : A) : result A := inr a.
Definition raise {A : Type} (e : exn) : result A := inl e.

Definition bind {A B : Type} (m : result A) (k : A -> result B) : result B :=
  match m with
  | inl e => inl e
  | inr a => k a
  end.

Notation "x <- m ;; k" := (bind m (fun x => k))
  (at level 61, m at next level, right associativity).

(** ** The [quantities] package

    The package is a dependency of [camera.py], not part of it.  Embedded
    here are the units [camera.py], its tests and its example mention, and
    the operations on [Quantity] the module uses, with the behaviour the
    package documents: products and quotients combine the units, sums,
    differences and comparisons rescale the right operand to the units of
    the left one, [rescale] between incompatible units is a [ValueError].
    A dimensionality is the dictionary from unit to exponent of the
    package, here the exponent of each of the five units (an absent key is
    exponent [0]). *)

Module pq.

Record Dimensionality : Type := mkDim {
  exp_m : Z;      (* metre *)
  exp_mm : Z;     (* millimetre *)
  exp_um : Z;     (* micrometre (micron) *)
  exp_rad : Z;    (* radian *)
  exp_deg : Z     (* degree *)
}.

Definition dimensionless : Dimensionality := mkDim 0 0 0 0 0.

Definition dim_mul (a b : Dimensionality) : Dimensionality :=
  mkDim (exp_m a + exp_m b) (exp_mm a + exp_mm b) (exp_um a + exp_um b)
        (exp_rad a + exp_rad b) (exp_deg a + exp_deg b).

Definition dim_div (a b : Dimensionality) : Dimensionality :=
  mkDim (exp_m a - exp_m b) (exp_mm a - exp_mm b) (exp_um a - exp_um b)
        (exp_rad a - exp_rad b) (exp_deg a - exp_deg b).

Definition dim_eqb (a b : Dimensionality) : bool :=
  (exp_m a =? exp_m b)%Z && (exp_mm a =? exp_mm b)%Z &&
  (exp_um a =? exp_um b)%Z && (exp_rad a =? exp_rad b)%Z &&
  (exp_deg a =? exp_deg b)%Z.

(** The dimensionality in SI base units: the power of the metre.  The
    radian is defined as [1 * dimensionless], the degree as
    [pi/180 * radian], so angles contribute nothing. *)
Definition length_exponent (d : Dimensionality) : Z :=
  (exp_m d + exp_mm d + exp_um d)%Z.

Definition simplified_dim (d : Dimensionality) : Dimensionality :=
  mkDim (length_exponent d) 0 0 0 0.

(** The magnitude of one unit of [d] in SI base units. *)
Definition si_factor (d : Dimensionality) : R :=
  powerRZ (/ 1000) (exp_mm d) * powerRZ (/ 1000000) (exp_um d) *
  powerRZ (PI / 180) (exp_deg d).

Record Quantity : Type := mkQuantity {
  magnitude : pyfloat;
  dimensionality : Dimensionality
}.

(** A plain number used as an operand. *)
Definition scalar (x : pyfloat) : Quantity := mkQuantity x dimensionless.

Definition of_float (x : R) : Quantity := scalar (Fin x).
Definition of_int (n : Z) : Quantity := scalar (Fin (IZR n)).

Definition unit_quantity (d : Dimensionality) : Quantity := mkQuantity (Fin 1) d.

Definition m : Quantity := unit_quantity (mkDim 1 0 0 0 0).
Definition meter : Quantity := m.
Definition mm : Quantity := unit_quantity (mkDim 0 1 0 0 0).
Definition micron : Quantity := unit_quantity (mkDim 0 0 1 0 0).
Definition radian : Quantity := unit_quantity (mkDim 0 0 0 1 0).
Definition degrees : Quantity := unit_quantity (mkDim 0 0 0 0 1).

(** [q.units] *)
Definition units (q : Quantity) : Quantity := unit_quantity (dimensionality q).

(** [q1 * q2] *)
Definition mul (q1 q2 : Quantity) : Quantity :=
  mkQuantity (fmul (magnitude q1) (magnitude q2))
             (dim_mul (dimensionality q1) (dimensionality q2)).

(** [q1 / q2] *)
Definition div (q1 q2 : Quantity) : Quantity :=
  mkQuantity (fdiv (magnitude q1) (magnitude q2))
             (dim_div (dimensionality q1) (dimensionality q2)).

(** [q.rescale(u)]: unchanged when the units are the same, multiplied by
    the conversion factor when they have the same SI dimensionality, a
    [ValueError] otherwise. *)
Definition rescale (q : Quantity) (u : Quantity) : result Quantity :=
  let from_d := dimensionality q in
  let to_d := dimensionality u in
  if dim_eqb from_d to_d then ok q
  else if (length_exponent from_d =? length_exponent to_d)%Z then
    ok (mkQuantity (fmul (Fin (si_factor from_d / si_factor to_d)) (magnitude q)) to_d)
  else raise ValueError.

(** [q.simplified] *)
Definition simplified (q : Quantity) : Quantity :=
  mkQuantity (fmul (Fin (si_factor (dimensionality q))) (magnitude q))
             (simplified_dim (dimensionality q)).

(** [q1 + q2] and [q1 - q2]: the right operand is rescaled to the units of
    the left one. *)
Definition add (q1 q2 : Quantity) : result Quantity :=
  q2' <- rescale q2 (units q1) ;;
  ok (mkQuantity (fadd (magnitude q1) (magnitude q2')) (dimensionality q1)).

Definition sub (q1 q2 : Quantity) : result Quantity :=
  q2' <- rescale q2 (units q1) ;;
  ok (mkQuantity (fsub (magnitude q1) (magnitude q2')) (dimensionality q1)).

(** [q1 > q2] and [q1 < q2] between quantities: the right operand is
    rescaled to the units of the left one. *)
Definition gt (q1 q2 : Quantity) : result bool :=
  q2' <- rescale q2 (units q1) ;;
  ok (fgt (magnitude q1) (magnitude q2')).

Definition lt (q1 q2 : Quantity) : result bool :=
  q2' <- rescale q2 (units q1) ;;
  ok (flt (magnitude q1) (magnitude q2')).

(** [q > x] for a plain number [x]: the magnitude is compared. *)
Definition gt_number (q : Quantity) (x : pyfloat) : bool :=
  fgt (magnitude q) x.

(** [numpy.arctan2(q1, q2)]: the operands must carry identical units; the
    result is dimensionless. *)
Definition arctan2 (q1 q2 : Quantity) : result Quantity :=
  if dim_eqb (dimensionality q1) (dimensionality q2) then
    ok (scalar (farctan2 (magnitude q1) (magnitude q2)))
  else raise ValueError.

(** [numpy.hypot(q1, q2)]: the operands must carry identical units, which
    the result keeps. *)
Definition hypot (q1 q2 : Quantity) : result Quantity :=
  if dim_eqb (dimensionality q1) (dimensionality q2) then
    ok (mkQuantity (fhypot (magnitude q1) (magnitude q2)) (dimensionality q1))
  else raise ValueError.

(** [q1 == q2]: the right operand is rescaled to the units of the left
    one; quantities of incompatible units are unequal. *)
Definition eq (q1 q2 : Quantity) : bool :=
  match rescale q2 (units q1) with
  | inr q2' => feq (magnitude q1) (magnitude q2')
  | inl _ => false
  end.

(** [numpy.tan(q)]: the units of [q] must equal the radian; the result is
    dimensionless. *)
Definition tan (q : Quantity) : result Quantity :=
  if eq (units q) radian then ok (scalar (ftan (magnitude q)))
  else raise ValueError.

End pq.

(** ** camera.py *)

Open Scope string_scope.

(** The names bound at module level in [camera.py] (imports, the constant
    and the three classes).  Python's builtins hold no [Error]. *)
Definition module_globals : list string :=
  ["attr"; "math"; "numpy"; "pq"; "typing"; "INF"; "Sensor"; "Lens"; "Camera"].

(** [raise cls(args...)]: the class name is looked up first, and an
    unbound name is a [NameError]. *)
Definition raise_instance {A : Type} (cls : string) (args : list string) : result A :=
  if existsb (String.eqb cls) module_globals
  then raise (Raised cls args)
  else raise (NameError cls).

Record Sensor : Type := mkSensor {
  sensor_name : string;
  pixel_pitch : pq.Quantity;
  width_pixels : Z;
  height_pixels : Z;
  cfa : string
}.

Definition sensor_width (self : Sensor) : pq.Quantity :=
  pq.mul (pixel_pitch self) (pq.of_int (width_pixels self)).

Definition sensor_height (self : Sensor) : pq.Quantity :=
  pq.mul (pixel_pitch self) (pq.of_int (height_pixels self)).

Definition sensor_diagonal (self : Sensor) : result pq.Quantity :=
  pq.hypot (sensor_height self) (sensor_width self).

Definition circle_of_confusion_diameter (self : Sensor) : result pq.Quantity :=
  if String.eqb (cfa self) "bayer" then
    ok (pq.mul (pq.of_float (225 / 100)) (pixel_pitch self))
  else raise_instance "Error" ["Unknown cfa '%s'"; cfa self].

Record Lens : Type := mkLens {
  lens_name : string;
  focal_length : pq.Quantity;
  aperture_diameter : pq.Quantity;
  projection : string
}.

Definition f_number (self : Lens) : pq.Quantity :=
  pq.div (focal_length self) (aperture_diameter self).

Definition _GetAngleOfView (self : Lens) (focal_plane_length : pq.Quantity)
  : result pq.Quantity :=
  if String.eqb (projection self) "rectilinear" then
    f <- pq.rescale (focal_length self) (pq.units focal_plane_length) ;;
    a <- pq.arctan2 focal_plane_length (pq.mul (pq.of_float 2) f) ;;
    ok (pq.mul (pq.mul (pq.of_float 2) a) pq.radian)
  else if String.eqb (projection self) "equidistant" then
    let angle := pq.div focal_plane_length (focal_length self) in
    ok (pq.mul (pq.simplified angle) pq.radian)
  else raise_instance "Error" ["Unknown projection '%s'"; projection self].

Record Camera : Type := mkCamera {
  camera_name : string;
  sensor : Sensor;
  lens : Lens
}.

Definition GetAnglesOfView (self : Camera) : result (pq.Quantity * pq.Quantity) :=
  w <- _GetAngleOfView (lens self) (sensor_width (sensor self)) ;;
  h <- _GetAngleOfView (lens self) (sensor_height (sensor self)) ;;
  ok (w, h).

Definition GetDiagonalAngleOfView (self : Camera) : result pq.Quantity :=
  wh <- GetAnglesOfView self ;;
  pq.hypot (fst wh) (snd wh).

Definition GetInstantaneousAngleOfView (self : Camera) : result pq.Quantity :=
  _GetAngleOfView (lens self) (pixel_pitch (sensor self)).

Definition GetGroundSampleDistance (self : Camera) (distance : pq.Quantity)
  : result pq.Quantity :=
  ifov <- GetInstantaneousAngleOfView self ;;
  t <- pq.tan (pq.div ifov (pq.of_float 2)) ;;
  ok (pq.mul (pq.mul (pq.of_float 2) distance) t).

Definition GetHyperfocalDistance (self : Camera) : result pq.Quantity :=
  let focal_length := focal_length (lens self) in
  let focal_length_squared := pq.mul focal_length focal_length in
  coc_diameter <- circle_of_confusion_diameter (sensor self) ;;
  hyperfocal_distance <-
    pq.add (pq.div focal_length_squared
                   (pq.mul (f_number (lens self)) coc_diameter))
           focal_length ;;
  pq.rescale hyperfocal_distance pq.meter.

Definition GetDepthOfField (self : Camera) (focus_distance : pq.Quantity)
  : result (pq.Quantity * pq.Quantity) :=
  let focal_length := focal_length (lens self) in
  let focal_length_squared := pq.mul focal_length focal_length in
  holds <- pq.gt focus_distance focal_length ;;
  if negb holds then raise AssertionError else
  coc_diameter <- circle_of_confusion_diameter (sensor self) ;;
  (* Equation 22.3 *)
  denominator <-
    pq.add focal_length_squared
           (pq.mul (pq.mul (f_number (lens self)) coc_diameter) focus_distance) ;;
  let near := pq.div (pq.mul focus_distance focal_length_squared) denominator in
  (* Equation 22.4 *)
  sd <- pq.sub focal_length_squared
               (pq.mul (pq.mul (f_number (lens self)) coc_diameter) focus_distance) ;;
  let far :=
    if pq.gt_number sd (Fin 0)
    then pq.div (pq.mul focus_distance focal_length_squared) sd
    else pq.mul (pq.scalar INF) pq.m in
  ok (near, far).

Definition Get35mmEquivalentFocalLength (self : Camera) : result pq.Quantity :=
  diagonal <- sensor_diagonal (sensor self) ;;
  let crop_factor := pq.div (pq.mul (pq.of_float (4327 / 100)) pq.mm) diagonal in
  pq.rescale (pq.mul crop_factor (focal_length (lens self))) pq.mm.

Definition GetAPSCEquivalentFocalLength (self : Camera) : result pq.Quantity :=
  e <- Get35mmEquivalentFocalLength self ;;
  ok (pq.div e (pq.of_float (15 / 10))).

(** ** What a quantity measures

    [measures q k x]: [q] has a finite magnitude, its SI dimensionality is
    the [k]-th power of the metre, and its value in SI base units is [x]. *)

Definition measures (q : pq.Quantity) (k : Z) (x : R) : Prop :=
  pq.length_exponent (pq.dimensionality q) = k /\
  exists r, pq.magnitude q = Fin r /\ x = r * pq.si_factor (pq.dimensionality q).

(** A length of [x] metres. *)
Definition is_length (q : pq.Quantity) (x : R) : Prop := measures q 1 x.

(** ** Cameras the formulas are meant for

    [thin_lens self f A p]: the sensor is a Bayer sensor of pixel pitch [p]
    metres, the lens has focal length [f] metres and aperture diameter [A]
    metres, all three positive. *)

Record thin_lens (self : Camera) (f A p : R) : Prop := {
  tl_cfa : cfa (sensor self) = "bayer";
  tl_focal_length : is_length (focal_length (lens self)) f;
  tl_aperture : is_length (aperture_diameter (lens self)) A;
  tl_pitch : is_length (pixel_pitch (sensor self)) p;
  tl_f_pos : 0 < f;
  tl_A_pos : 0 < A;
  tl_p_pos : 0 < p
}.

(** [float("inf") * pq.m] *)
Definition infinite_length : pq.Quantity := pq.mul (pq.scalar INF) pq.m.

(** ** The camera of camera_test.py

    Pixel pitch 5 micron, 4000 x 3000 pixels, focal length 10 mm,
    f-number 2. *)

Definition test_sensor : Sensor :=
  mkSensor "s" (pq.mul (pq.of_float 5) pq.micron) 4000 3000 "bayer".

Definition test_focal_length : pq.Quantity := pq.mul (pq.of_float 10) pq.mm.

Definition test_lens (projection : string) : Lens :=
  mkLens "l" test_focal_length (pq.div test_focal_length (pq.of_float 2)) projection.

Definition test_camera (projection : string) : Camera :=
  mkCamera "c" test_sensor (test_lens projection).

Definition meters (x : R) : pq.Quantity := pq.mul (pq.of_float x) pq.m.

(** The sensor of the tests with its pixel pitch halved. *)
Definition half_pitch_camera : Camera :=
  mkCamera "c" (mkSensor "s" (pq.mul (pq.of_float (25 / 10)) pq.micron) 4000 3000 "bayer")
           (test_lens "rectilinear").

(** ** Floats *)

Section Floats.

Lemma Rsign_pos (r : R) : 0 < r -> Rsign r = Pos.
Proof.
  intros H. unfold Rsign.
  destruct (total_order_T r 0) as [[Hlt | Heq] | Hgt]; [lra | lra | reflexivity].
Qed.

Lemma Rsign_neg (r : R) : r < 0 -> Rsign r = Neg.
Proof.
  intros H. unfold Rsign.
  destruct (total_order_T r 0) as [[Hlt | Heq] | Hgt]; [reflexivity | lra | lra].
Qed.

Lemma Rsign_zero : Rsign 0 = Zero.
Proof.
  unfold Rsign.
  destruct (total_order_T 0 0) as [[Hlt | Heq] | Hgt]; [lra | reflexivity | lra].
Qed.

Lemma fdiv_fin (a b : R) : b <> 0 -> fdiv (Fin a) (Fin b) = Fin (a / b).
Proof.
  intros Hb. simpl. unfold Rsign.
  destruct (total_order_T b 0) as [[Hlt | Heq] | Hgt]; [reflexivity | lra | reflexivity].
Qed.

Lemma div_mul_cancel (x d : R) : d <> 0 -> x / d * d = x.
Proof. intros Hd. field. exact Hd. Qed.

Lemma fgt_fin_true (a b : R) : b < a -> fgt (Fin a) (Fin b) = true.
Proof.
  intros H. simpl. destruct (Rlt_dec b a); [reflexivity | contradiction].
Qed.

Lemma fgt_fin_false (a b : R) : a <= b -> fgt (Fin a) (Fin b) = false.
Proof.
  intros H. simpl. destruct (Rlt_dec b a); [lra | reflexivity].
Qed.

End Floats.

(** ** Units *)

Section Units.

Lemma dim_eqb_eq (a b : pq.Dimensionality) : pq.dim_eqb a b = true <-> a = b.
Proof.
  destruct a as [a1 a2 a3 a4 a5], b as [b1 b2 b3 b4 b5].
  unfold pq.dim_eqb; simpl. rewrite !andb_true_iff, !Z.eqb_eq.
  split.
  - intros [[[[-> ->] ->] ->] ->]. reflexivity.
  - intros H. injection H as -> -> -> -> ->. tauto.
Qed.

Lemma dim_eqb_refl (a : pq.Dimensionality) : pq.dim_eqb a a = true.
Proof. apply dim_eqb_eq. reflexivity. Qed.

Lemma deg_factor_pos : 0 < PI / 180.
Proof. pose proof PI_RGT_0. lra. Qed.

Lemma si_factor_pos (d : pq.Dimensionality) : 0 < pq.si_factor d.
Proof.
  unfold pq.si_factor.
  repeat apply Rmult_lt_0_compat; apply powerRZ_lt; try lra.
  apply deg_factor_pos.
Qed.

Lemma si_factor_neq (d : pq.Dimensionality) : pq.si_factor d <> 0.
Proof. pose proof (si_factor_pos d). lra. Qed.

Lemma si_factor_mul (a b : pq.Dimensionality) :
  pq.si_factor (pq.dim_mul a b) = pq.si_factor a * pq.si_factor b.
Proof.
  unfold pq.si_factor, pq.dim_mul; simpl.
  pose proof deg_factor_pos.
  rewrite !powerRZ_add by lra. ring.
Qed.

Lemma si_factor_div (a b : pq.Dimensionality) :
  pq.si_factor (pq.dim_div a b) = pq.si_factor a / pq.si_factor b.
Proof.
  unfold pq.si_factor, pq.dim_div; simpl.
  pose proof deg_factor_pos.
  unfold Z.sub. rewrite !powerRZ_add by lra. rewrite !powerRZ_neg'.
  field. repeat split; apply powerRZ_NOR; lra.
Qed.

Lemma si_factor_dimensionless : pq.si_factor pq.dimensionless = 1.
Proof. unfold pq.si_factor; simpl. ring. Qed.

Lemma length_exponent_mul (a b : pq.Dimensionality) :
  pq.length_exponent (pq.dim_mul a b)
  = (pq.length_exponent a + pq.length_exponent b)%Z.
Proof. unfold pq.length_exponent, pq.dim_mul; simpl. lia. Qed.

Lemma length_exponent_div (a b : pq.Dimensionality) :
  pq.length_exponent (pq.dim_div a b)
  = (pq.length_exponent a - pq.length_exponent b)%Z.
Proof. unfold pq.length_exponent, pq.dim_div; simpl. lia. Qed.

End Units.

(** ** Arithmetic on quantities preserves what they measure *)

Section Measures.

Lemma measures_of_float (x : R) : measures (pq.of_float x) 0 x.
Proof.
  split; [reflexivity |].
  exists x. split; [reflexivity |].
  simpl. rewrite si_factor_dimensionless. ring.
Qed.

Lemma measures_of_int (n : Z) : measures (pq.of_int n) 0 (IZR n).
Proof. apply measures_of_float. Qed.

Lemma measures_mul (q1 q2 : pq.Quantity) (k1 k2 : Z) (x1 x2 : R) :
  measures q1 k1 x1 -> measures q2 k2 x2 ->
  measures (pq.mul q1 q2) (k1 + k2) (x1 * x2).
Proof.
  intros [Hk1 [r1 [Hm1 Hx1]]] [Hk2 [r2 [Hm2 Hx2]]].
  split.
  - simpl. rewrite length_exponent_mul. lia.
  - exists (r1 * r2). simpl. rewrite Hm1, Hm2, si_factor_mul. split; [reflexivity |].
    subst x1 x2. ring.
Qed.

Lemma measures_div (q1 q2 : pq.Quantity) (k1 k2 : Z) (x1 x2 : R) :
  measures q1 k1 x1 -> measures q2 k2 x2 -> x2 <> 0 ->
  measures (pq.div q1 q2) (k1 - k2) (x1 / x2).
Proof.
  intros [Hk1 [r1 [Hm1 Hx1]]] [Hk2 [r2 [Hm2 Hx2]]] Hnz.
  pose proof (si_factor_neq (pq.dimensionality q2)) as Hf2.
  assert (Hr2 : r2 <> 0) by (intros ->; apply Hnz; subst x2; ring).
  split.
  - simpl. rewrite length_exponent_div. lia.
  - exists (r1 / r2). simpl. rewrite Hm1, Hm2, si_factor_div, fdiv_fin by assumption.
    split; [reflexivity |]. subst x1 x2. field. split; assumption.
Qed.

Lemma measures_rescale (q u : pq.Quantity) (k : Z) (x : R) :
  measures q k x -> pq.length_exponent (pq.dimensionality u) = k ->
  exists q', pq.rescale q u = ok q' /\ measures q' k x
             /\ pq.dimensionality q' = pq.dimensionality u.
Proof.
  intros [Hk [r [Hm Hx]]] Hu. unfold pq.rescale.
  destruct (pq.dim_eqb (pq.dimensionality q) (pq.dimensionality u)) eqn:E.
  - apply dim_eqb_eq in E. exists q. repeat split; try assumption.
    exists r. split; assumption.
  - rewrite Hk, Hu, Z.eqb_refl. eexists. split; [reflexivity |].
    split; [| reflexivity]. split; [assumption |].
    eexists. simpl. rewrite Hm. split; [reflexivity |].
    subst x. field. apply si_factor_neq.
Qed.

Lemma measures_add (q1 q2 : pq.Quantity) (k : Z) (x1 x2 : R) :
  measures q1 k x1 -> measures q2 k x2 ->
  exists q, pq.add q1 q2 = ok q /\ measures q k (x1 + x2)
            /\ pq.dimensionality q = pq.dimensionality q1.
Proof.
  intros H1 H2. unfold pq.add.
  destruct (measures_rescale q2 (pq.units q1) k x2 H2) as [q2' [-> [H2' Hd]]].
  { apply H1. }
  destruct H1 as [Hk1 [r1 [Hm1 Hx1]]]. destruct H2' as [_ [r2 [Hm2 Hx2]]].
  simpl in Hd. simpl. eexists. split; [reflexivity |].
  split; [| reflexivity]. split; [assumption |].
  exists (r1 + r2). simpl. rewrite Hm1, Hm2. split; [reflexivity |].
  rewrite Hd in Hx2. subst x1 x2. ring.
Qed.

Lemma measures_sub (q1 q2 : pq.Quantity) (k : Z) (x1 x2 : R) :
  measures q1 k x1 -> measures q2 k x2 ->
  exists q, pq.sub q1 q2 = ok q /\ measures q k (x1 - x2)
            /\ pq.dimensionality q = pq.dimensionality q1.
Proof.
  intros H1 H2. unfold pq.sub.
  destruct (measures_rescale q2 (pq.units q1) k x2 H2) as [q2' [-> [H2' Hd]]].
  { apply H1. }
  destruct H1 as [Hk1 [r1 [Hm1 Hx1]]]. destruct H2' as [_ [r2 [Hm2 Hx2]]].
  simpl in Hd. simpl. eexists. split; [reflexivity |].
  split; [| reflexivity]. split; [assumption |].
  exists (r1 - r2). simpl. rewrite Hm1, Hm2. split; [reflexivity |].
  rewrite Hd in Hx2. subst x1 x2. ring.
Qed.

Lemma gt_measures (q1 q2 : pq.Quantity) (k : Z) (x1 x2 : R) :
  measures q1 k x1 -> measures q2 k x2 ->
  pq.gt q1 q2 = ok (if Rlt_dec x2 x1 then true else false).
Proof.
  intros H1 H2. unfold pq.gt.
  destruct (measures_rescale q2 (pq.units q1) k x2 H2) as [q2' [-> [H2' Hd]]].
  { apply H1. }
  destruct H1 as [Hk1 [r1 [Hm1 Hx1]]]. destruct H2' as [_ [r2 [Hm2 Hx2]]].
  simpl in Hd. simpl. rewrite Hm1, Hm2. rewrite Hd in Hx2. simpl.
  pose proof (si_factor_pos (pq.dimensionality q1)) as Hf.
  subst x1 x2. f_equal.
  destruct (Rlt_dec r2 r1), (Rlt_dec _ _); try reflexivity; exfalso; nra.
Qed.

Lemma gt_number_measures (q : pq.Quantity) (k : Z) (x : R) :
  measures q k x ->
  pq.gt_number q (Fin 0) = if Rlt_dec 0 x then true else false.
Proof.
  intros [Hk [r [Hm Hx]]]. unfold pq.gt_number. rewrite Hm. simpl.
  pose proof (si_factor_pos (pq.dimensionality q)) as Hf. subst x.
  destruct (Rlt_dec 0 r), (Rlt_dec _ _); try reflexivity; exfalso; nra.
Qed.

End Measures.

(** ** Sensor and lens properties *)

Section Properties.

Lemma coc_bayer (s : Sensor) (p : R) :
  cfa s = "bayer" -> is_length (pixel_pitch s) p ->
  exists q, circle_of_confusion_diameter s = ok q /\ is_length q (225 / 100 * p).
Proof.
  intros Hcfa Hp. unfold circle_of_confusion_diameter. rewrite Hcfa. simpl.
  eexists. split; [reflexivity |].
  apply (measures_mul _ _ 0 1); [apply measures_of_float | exact Hp].
Qed.

Lemma f_number_measures (l : Lens) (f A : R) :
  is_length (focal_length l) f -> is_length (aperture_diameter l) A -> A <> 0 ->
  measures (f_number l) 0 (f / A).
Proof.
  intros Hf HA Hnz. unfold f_number.
  apply (measures_div _ _ 1 1); assumption.
Qed.

End Properties.

(** ** Depth of field and hyperfocal distance *)

Section DepthOfField.

Variable self : Camera.
Variables f A p : R.
Hypothesis Hcfa : cfa (sensor self) = "bayer".
Hypothesis Hf : is_length (focal_length (lens self)) f.
Hypothesis HA : is_length (aperture_diameter (lens self)) A.
Hypothesis Hp : is_length (pixel_pitch (sensor self)) p.
Hypothesis f_pos : 0 < f.
Hypothesis A_pos : 0 < A.
Hypothesis p_pos : 0 < p.

(** The f-number [N] and the circle of confusion [c]. *)
Let N : R := f / A.
Let c : R := 225 / 100 * p.

Lemma N_pos : 0 < N.
Proof. unfold N. apply Rdiv_lt_0_compat; assumption. Qed.

Lemma c_pos : 0 < c.
Proof. unfold c. lra. Qed.

Lemma Nc_pos : 0 < N * c.
Proof. apply Rmult_lt_0_compat; [apply N_pos | apply c_pos]. Qed.

(** The shape of the result of [GetDepthOfField] on a valid focus
    distance. *)
Lemma depth_of_field_shape (focus_distance : pq.Quantity) (s : R) :
  is_length focus_distance s -> f < s ->
  exists near far,
    GetDepthOfField self focus_distance = ok (near, far)
    /\ is_length near (s * (f * f) / (f * f + N * c * s))
    /\ (0 < f * f - N * c * s ->
        is_length far (s * (f * f) / (f * f - N * c * s)))
    /\ (f * f - N * c * s <= 0 ->
        far = pq.mkQuantity PInf (pq.dimensionality pq.m)).
Proof.
  intros Hs Hlt. pose proof Nc_pos as HNc. unfold GetDepthOfField.
  rewrite (gt_measures _ _ 1 s f Hs Hf).
  destruct (Rlt_dec f s) as [_ | Hn]; [| contradiction]. simpl.
  destruct (coc_bayer _ p Hcfa Hp) as [coc [-> Hcoc]]. simpl.
  assert (HN : measures (f_number (lens self)) 0 N).
  { apply f_number_measures; [assumption | assumption | lra]. }
  pose proof (measures_mul _ _ _ _ _ _ Hf Hf) as Hf2.
  pose proof (measures_mul _ _ _ _ _ _ (measures_mul _ _ _ _ _ _ HN Hcoc) Hs) as HNcs.
  fold c in HNcs. change (0 + 1 + 1)%Z with (1 + 1)%Z in HNcs.
  pose proof (measures_mul _ _ _ _ _ _ Hs Hf2) as Hsf2.
  destruct (measures_add _ _ _ _ _ Hf2 HNcs) as [den [-> [Hden _]]]. simpl.
  destruct (measures_sub _ _ _ _ _ Hf2 HNcs) as [sd [-> [Hsd _]]]. simpl.
  assert (Hdpos : 0 < f * f + N * c * s) by nra.
  do 2 eexists. split; [reflexivity |]. split; [| split].
  - apply (measures_div _ _ (1 + (1 + 1)) (1 + 1)); [assumption | assumption | lra].
  - intros Hpos. rewrite (gt_number_measures _ _ _ Hsd).
    destruct (Rlt_dec 0 (f * f - N * c * s)); [| contradiction].
    apply (measures_div _ _ (1 + (1 + 1)) (1 + 1)); [assumption | assumption | lra].
  - intros Hneg. rewrite (gt_number_measures _ _ _ Hsd).
    destruct (Rlt_dec 0 (f * f - N * c * s)); [lra |].
    unfold pq.mul, INF. simpl. rewrite Rsign_pos by lra. reflexivity.
Qed.

(** The result of [GetHyperfocalDistance]. *)
Lemma hyperfocal_shape :
  exists H,
    GetHyperfocalDistance self = ok H
    /\ is_length H (f * f / (N * c) + f)
    /\ pq.dimensionality H = pq.dimensionality pq.meter.
Proof.
  pose proof Nc_pos as HNc. unfold GetHyperfocalDistance.
  destruct (coc_bayer _ p Hcfa Hp) as [coc [-> Hcoc]]. simpl.
  assert (HN : measures (f_number (lens self)) 0 N).
  { apply f_number_measures; [assumption | assumption | lra]. }
  pose proof (measures_mul _ _ _ _ _ _ Hf Hf) as Hf2.
  pose proof (measures_mul _ _ _ _ _ _ HN Hcoc) as HNcoc. fold c in HNcoc.
  assert (Hq : measures (pq.div (pq.mul (focal_length (lens self)) (focal_length (lens self)))
                                (pq.mul (f_number (lens self)) coc)) 1 (f * f / (N * c))).
  { apply (measures_div _ _ (1 + 1) (0 + 1)); [assumption | assumption | lra]. }
  destruct (measures_add _ _ _ _ _ Hq Hf) as [h [-> [Hh _]]]. simpl.
  destruct (measures_rescale h pq.meter 1 _ Hh eq_refl) as [H [-> [HH Hd]]].
  exists H. split; [reflexivity |]. split; assumption.
Qed.

End DepthOfField.

Section Comparisons.

Lemma lt_measures (q1 q2 : pq.Quantity) (k : Z) (x1 x2 : R) :
  measures q1 k x1 -> measures q2 k x2 ->
  pq.lt q1 q2 = ok (if Rlt_dec x1 x2 then true else false).
Proof.
  intros H1 H2. unfold pq.lt.
  destruct (measures_rescale q2 (pq.units q1) k x2 H2) as [q2' [-> [H2' Hd]]].
  { apply H1. }
  destruct H1 as [Hk1 [r1 [Hm1 Hx1]]]. destruct H2' as [_ [r2 [Hm2 Hx2]]].
  simpl in Hd. simpl. rewrite Hm1, Hm2. rewrite Hd in Hx2. unfold flt. simpl.
  pose proof (si_factor_pos (pq.dimensionality q1)) as Hf.
  subst x1 x2. f_equal.
  destruct (Rlt_dec r1 r2), (Rlt_dec _ _); try reflexivity; exfalso; nra.
Qed.

Lemma infinite_length_eq :
  infinite_length = pq.mkQuantity PInf (pq.dimensionality pq.m).
Proof.
  unfold infinite_length, pq.mul, INF. simpl. rewrite Rsign_pos by lra. reflexivity.
Qed.

(** Every finite length is below [inf * pq.m]. *)
Lemma lt_infinite_length (q : pq.Quantity) (x : R) :
  is_length q x -> pq.lt q infinite_length = ok true.
Proof.
  intros [Hk [r [Hm Hx]]]. rewrite infinite_length_eq. unfold pq.lt, pq.rescale. simpl.
  destruct (pq.dim_eqb _ _); simpl.
  - rewrite Hm. reflexivity.
  - change (pq.length_exponent (pq.mkDim 1 0 0 0 0)) with 1%Z. rewrite Hk. simpl.
    rewrite Rsign_pos.
    + rewrite Hm. reflexivity.
    + apply Rdiv_lt_0_compat; apply si_factor_pos.
Qed.

End Comparisons.

Section TestCamera.

Lemma is_length_m : is_length pq.m 1.
Proof.
  split; [reflexivity |]. exists 1. split; [reflexivity |].
  unfold pq.si_factor; simpl. lra.
Qed.

Lemma is_length_mm : is_length pq.mm (/ 1000).
Proof.
  split; [reflexivity |]. exists 1. split; [reflexivity |].
  unfold pq.si_factor; simpl. lra.
Qed.

Lemma is_length_micron : is_length pq.micron (/ 1000000).
Proof.
  split; [reflexivity |]. exists 1. split; [reflexivity |].
  unfold pq.si_factor; simpl. lra.
Qed.

Lemma is_length_meters (x : R) : is_length (meters x) x.
Proof.
  replace x with (x * 1) at 2 by ring.
  apply (measures_mul _ _ 0 1); [apply measures_of_float | apply is_length_m].
Qed.

Lemma test_focal_length_is : is_length test_focal_length (/ 100).
Proof.
  replace (/ 100) with (10 * / 1000) by lra.
  apply (measures_mul _ _ 0 1); [apply measures_of_float | apply is_length_mm].
Qed.

Lemma test_camera_thin_lens (projection : string) :
  thin_lens (test_camera projection) (/ 100) (/ 200) (/ 200000).
Proof.
  constructor; try lra.
  - reflexivity.
  - apply test_focal_length_is.
  - replace (/ 200) with (/ 100 / 2) by lra.
    apply (measures_div _ _ 1 0);
      [apply test_focal_length_is | apply measures_of_float | lra].
  - replace (/ 200000) with (5 * / 1000000) by lra.
    apply (measures_mul _ _ 0 1); [apply measures_of_float | apply is_length_micron].
Qed.

End TestCamera.

(** ** Depth of field *)

(** C1.  For a camera with a Bayer sensor and positive focal length [f],
    aperture diameter [A] and pixel pitch [p] (f-number [N = f / A], circle
    of confusion [c = 2.25 p]), [GetDepthOfField] at a focus distance
    [s > f] returns [near = s f^2 / (f^2 + N c s)], and
    [far = s f^2 / (f^2 - N c s)] when [f^2 - N c s > 0], otherwise
    [far = float("inf") * pq.m], an infinite magnitude in metres. *)
Theorem GetDepthOfField_formula
    (self : Camera) (focus_distance : pq.Quantity) (f A p s : R) :
  thin_lens self f A p -> is_length focus_distance s -> f < s ->
  exists near far,
    GetDepthOfField self focus_distance = ok (near, far)
    /\ is_length near (s * (f * f) / (f * f + f / A * (225 / 100 * p) * s))
    /\ (0 < f * f - f / A * (225 / 100 * p) * s ->
        is_length far (s * (f * f) / (f * f - f / A * (225 / 100 * p) * s)))
    /\ (f * f - f / A * (225 / 100 * p) * s <= 0 ->
        far = infinite_length
        /\ pq.magnitude far = PInf
        /\ pq.dimensionality far = pq.dimensionality pq.m).
Proof.
  intros [Hcfa Hf HA Hp f_pos A_pos p_pos] Hs Hlt.
  destruct (depth_of_field_shape self f A p Hcfa Hf HA Hp f_pos A_pos p_pos
              focus_distance s Hs Hlt) as [near [far [Heq [Hnear [Hfin Hinf]]]]].
  exists near, far.
  split; [exact Heq |]. split; [exact Hnear |]. split; [exact Hfin |].
  intros Hle. rewrite (Hinf Hle), infinite_length_eq.
  split; [reflexivity |]. split; reflexivity.
Qed.

Lemma GetDepthOfField_formula_witness :
  exists near far,
    GetDepthOfField (test_camera "rectilinear") (meters 1) = ok (near, far)
    /\ is_length near (40 / 49) /\ is_length far (40 / 31).
Proof.
  destruct (GetDepthOfField_formula (test_camera "rectilinear") (meters 1)
              (/ 100) (/ 200) (/ 200000) 1
              (test_camera_thin_lens "rectilinear") (is_length_meters 1))
    as [near [far [Heq [Hnear [Hfar _]]]]]; [lra |].
  exists near, far. split; [exact Heq |]. split.
  - replace (40 / 49)
      with (1 * (/ 100 * / 100) /
            (/ 100 * / 100 + / 100 / / 200 * (225 / 100 * / 200000) * 1)) by lra.
    exact Hnear.
  - replace (40 / 31)
      with (1 * (/ 100 * / 100) /
            (/ 100 * / 100 - / 100 / / 200 * (225 / 100 * / 200000) * 1)) by lra.
    apply Hfar. lra.
Defined.

Section Denominator.

(** The denominator of the near limit as [GetDepthOfField] computes it. *)
Lemma depth_of_field_denominator
    (self : Camera) (focus_distance : pq.Quantity) (f A p s : R) :
  thin_lens self f A p -> is_length focus_distance s -> f < s ->
  exists coc denominator far,
    circle_of_confusion_diameter (sensor self) = ok coc
    /\ pq.add (pq.mul (focal_length (lens self)) (focal_length (lens self)))
              (pq.mul (pq.mul (f_number (lens self)) coc) focus_distance)
       = ok denominator
    /\ measures denominator 2 (f * f + f / A * (225 / 100 * p) * s)
    /\ GetDepthOfField self focus_distance
       = ok (pq.div (pq.mul focus_distance
                            (pq.mul (focal_length (lens self)) (focal_length (lens self))))
                    denominator,
             far).
Proof.
  intros [Hcfa Hf HA Hp f_pos A_pos p_pos] Hs Hlt. unfold GetDepthOfField.
  rewrite (gt_measures _ _ 1 s f Hs Hf).
  destruct (Rlt_dec f s) as [_ | Hn]; [| contradiction]. simpl.
  destruct (coc_bayer _ p Hcfa Hp) as [coc [Hcoc_eq Hcoc]]. rewrite Hcoc_eq. simpl.
  assert (HN : measures (f_number (lens self)) 0 (f / A)).
  { apply f_number_measures; [assumption | assumption | lra]. }
  pose proof (measures_mul _ _ _ _ _ _ Hf Hf) as Hf2.
  pose proof (measures_mul _ _ _ _ _ _ (measures_mul _ _ _ _ _ _ HN Hcoc) Hs) as HNcs.
  change (0 + 1 + 1)%Z with (1 + 1)%Z in HNcs.
  destruct (measures_add _ _ _ _ _ Hf2 HNcs) as [den [Hden_eq [Hden _]]].
  destruct (measures_sub _ _ _ _ _ Hf2 HNcs) as [sd [Hsd_eq _]].
  rewrite Hden_eq, Hsd_eq. simpl.
  exists coc, den. eexists. split; [reflexivity |]. split; [exact Hden_eq |].
  split; [exact Hden | reflexivity].
Qed.

End Denominator.

(** C10, as the code has it.  For a camera with a Bayer sensor and
    positive focal length, aperture diameter and pixel pitch, and every
    finite focus distance [s > f], whether or not it reaches the hyperfocal
    distance: the denominator the code computes for the near limit measures
    [f^2 + N c s], which is strictly positive; the near limit is the quotient
    by that denominator, finite, equal to [s f^2 / (f^2 + N c s)], strictly
    positive and strictly below [s]; and [near < far] holds for the pair
    returned, in the branch of the finite far limit as in that of the
    infinite one. *)
Theorem GetDepthOfField_near_bounds
    (self : Camera) (focus_distance : pq.Quantity) (f A p s : R) :
  thin_lens self f A p -> is_length focus_distance s -> f < s ->
  exists coc denominator near far,
    circle_of_confusion_diameter (sensor self) = ok coc
    /\ pq.add (pq.mul (focal_length (lens self)) (focal_length (lens self)))
              (pq.mul (pq.mul (f_number (lens self)) coc) focus_distance)
       = ok denominator
    /\ measures denominator 2 (f * f + f / A * (225 / 100 * p) * s)
    /\ 0 < f * f + f / A * (225 / 100 * p) * s
    /\ GetDepthOfField self focus_distance = ok (near, far)
    /\ near = pq.div (pq.mul focus_distance
                             (pq.mul (focal_length (lens self))
                                     (focal_length (lens self))))
                     denominator
    /\ is_length near (s * (f * f) / (f * f + f / A * (225 / 100 * p) * s))
    /\ 0 < s * (f * f) / (f * f + f / A * (225 / 100 * p) * s)
    /\ s * (f * f) / (f * f + f / A * (225 / 100 * p) * s) < s
    /\ pq.lt near far = ok true
    /\ (0 < f * f - f / A * (225 / 100 * p) * s ->
        is_length far (s * (f * f) / (f * f - f / A * (225 / 100 * p) * s)))
    /\ (f * f - f / A * (225 / 100 * p) * s <= 0 -> far = infinite_length).
Proof.
  intros Htl Hs Hlt.
  destruct (depth_of_field_denominator self focus_distance f A p s Htl Hs Hlt)
    as [coc [den [far [Hcoc [Hden_eq [Hden Heq]]]]]].
  destruct Htl as [Hcfa Hf HA Hp f_pos A_pos p_pos].
  pose proof (Nc_pos f A p f_pos A_pos p_pos) as HNc.
  assert (Hs_pos : 0 < s) by lra.
  assert (HNcs : 0 < f / A * (225 / 100 * p) * s)
    by (apply Rmult_lt_0_compat; assumption).
  assert (Hff : 0 < f * f) by (apply Rmult_lt_0_compat; assumption).
  assert (Hpos : 0 < f * f + f / A * (225 / 100 * p) * s) by lra.
  assert (Hnum : 0 < s * (f * f)) by (apply Rmult_lt_0_compat; assumption).
  destruct (depth_of_field_shape self f A p Hcfa Hf HA Hp f_pos A_pos p_pos
              focus_distance s Hs Hlt) as [near' [far' [Heq' [Hnear [Hfin Hinf]]]]].
  rewrite Heq in Heq'. injection Heq' as <- <-.
  exists coc, den. eexists. exists far.
  split; [exact Hcoc |]. split; [exact Hden_eq |]. split; [exact Hden |].
  split; [exact Hpos |]. split; [exact Heq |]. split; [reflexivity |].
  split; [exact Hnear |].
  split; [apply Rdiv_lt_0_compat; assumption |].
  split.
  { apply (Rmult_lt_reg_r (f * f + f / A * (225 / 100 * p) * s)); [exact Hpos |].
    rewrite div_mul_cancel by lra. apply Rmult_lt_compat_l; lra. }
  split.
  { destruct (Rlt_dec 0 (f * f - f / A * (225 / 100 * p) * s)) as [Hsd | Hsd].
    - rewrite (lt_measures _ _ 1 _ _ Hnear (Hfin Hsd)).
      destruct (Rlt_dec _ _) as [_ | Hn]; [reflexivity |].
      exfalso. apply Hn. unfold Rdiv.
      apply Rmult_lt_compat_l; [exact Hnum |].
      apply Rinv_lt_contravar; [apply Rmult_lt_0_compat; lra | lra].
    - rewrite (Hinf (Rnot_lt_le _ _ Hsd)), <- infinite_length_eq.
      apply (lt_infinite_length _ _ Hnear). }
  split; [exact Hfin |].
  intros Hle. rewrite infinite_length_eq. exact (Hinf Hle).
Qed.

Lemma GetDepthOfField_near_bounds_witness :
  exists near n,
    GetDepthOfField (test_camera "rectilinear") (meters 5) = ok (near, infinite_length)
    /\ is_length near n
    /\ 0 < n /\ n < 5
    /\ pq.lt near infinite_length = ok true.
Proof.
  destruct (GetDepthOfField_near_bounds (test_camera "rectilinear") (meters 5)
              (/ 100) (/ 200) (/ 200000) 5 (test_camera_thin_lens "rectilinear")
              (is_length_meters 5))
    as [coc [den [near [far [_ [_ [_ [_ [Heq [_ [Hnear [H0 [H5 [Hlt [_ Hinf]]]]]]]]]]]]]]];
    [lra |].
  assert (Hfar : far = infinite_length) by (apply Hinf; lra).
  rewrite Hfar in Heq, Hlt.
  exists near. eexists. split; [exact Heq |]. split; [exact Hnear |].
  split; [exact H0 |]. split; [exact H5 | exact Hlt].
Defined.

(** ** Hyperfocal distance *)

(** C3.  For a camera with a Bayer sensor and positive focal length [f],
    aperture diameter [A] and pixel pitch [p], [GetHyperfocalDistance]
    returns [f^2 / (N c) + f] with [N = f / A] and [c = 2.25 p]; the
    result carries the unit metre, whatever units the inputs carry, so its
    magnitude is that number of metres. *)
Theorem GetHyperfocalDistance_formula (self : Camera) (f A p : R) :
  thin_lens self f A p ->
  exists H,
    GetHyperfocalDistance self = ok H
    /\ pq.dimensionality H = pq.dimensionality pq.meter
    /\ pq.magnitude H = Fin (f * f / (f / A * (225 / 100 * p)) + f)
    /\ is_length H (f * f / (f / A * (225 / 100 * p)) + f).
Proof.
  intros [Hcfa Hf HA Hp f_pos A_pos p_pos].
  destruct (hyperfocal_shape self f A p Hcfa Hf HA Hp f_pos A_pos p_pos)
    as [H [Heq [HH Hd]]].
  exists H. split; [exact Heq |]. split; [exact Hd |]. split; [| exact HH].
  destruct HH as [_ [r [Hm Hx]]]. rewrite Hm, Hx, Hd. f_equal.
  unfold pq.si_factor; simpl. lra.
Qed.

Lemma GetHyperfocalDistance_formula_witness :
  exists H,
    GetHyperfocalDistance (test_camera "rectilinear") = ok H
    /\ pq.dimensionality H = pq.dimensionality pq.meter
    /\ pq.magnitude H = Fin (4009 / 900).
Proof.
  destruct (GetHyperfocalDistance_formula (test_camera "rectilinear")
              (/ 100) (/ 200) (/ 200000) (test_camera_thin_lens "rectilinear"))
    as [H [Heq [Hd [Hm _]]]].
  exists H. split; [exact Heq |]. split; [exact Hd |].
  rewrite Hm. f_equal. lra.
Defined.

(** C2, as the code has it.  For a camera with a Bayer sensor and positive
    focal length, aperture diameter and pixel pitch: focused at the distance
    [GetHyperfocalDistance] returns, [GetDepthOfField] gives an infinite far
    limit; for every focus distance [s] above the focal length and strictly
    below [f^2 / (N c)], the hyperfocal distance less one focal length, the
    limits are finite with [0 < near < s < far]; for every focus distance
    from [f^2 / (N c)] on the far limit is infinite. *)
Theorem GetDepthOfField_hyperfocal (self : Camera) (f A p : R) :
  thin_lens self f A p ->
  (exists H near,
     GetHyperfocalDistance self = ok H
     /\ GetDepthOfField self H = ok (near, infinite_length))
  /\ (forall focus_distance s,
        is_length focus_distance s -> f < s ->
        s < f * f / (f / A * (225 / 100 * p)) ->
        exists near far n r,
          GetDepthOfField self focus_distance = ok (near, far)
          /\ is_length near n /\ is_length far r
          /\ 0 < n /\ n < s /\ s < r)
  /\ (forall focus_distance s,
        is_length focus_distance s -> f < s ->
        f * f / (f / A * (225 / 100 * p)) <= s ->
        exists near,
          GetDepthOfField self focus_distance = ok (near, infinite_length)).
Proof.
  intros [Hcfa Hf HA Hp f_pos A_pos p_pos].
  pose proof (Nc_pos f A p f_pos A_pos p_pos) as HNc.
  assert (Hff : 0 < f * f) by (apply Rmult_lt_0_compat; assumption).
  assert (Hbeyond : forall focus_distance s,
             is_length focus_distance s -> f < s ->
             f * f / (f / A * (225 / 100 * p)) <= s ->
             exists near,
               GetDepthOfField self focus_distance = ok (near, infinite_length)).
  { intros fd s Hs Hlt Hle.
    destruct (depth_of_field_shape self f A p Hcfa Hf HA Hp f_pos A_pos p_pos
                fd s Hs Hlt) as [near [far [Heq [_ [_ Hinf]]]]].
    exists near. rewrite Heq, infinite_length_eq, Hinf; [reflexivity |].
    apply (Rmult_le_compat_r (f / A * (225 / 100 * p))) in Hle; [| lra].
    rewrite div_mul_cancel in Hle by lra. lra. }
  split; [| split].
  - destruct (hyperfocal_shape self f A p Hcfa Hf HA Hp f_pos A_pos p_pos)
      as [H [Heq [HH _]]].
    assert (Hq : 0 < f * f / (f / A * (225 / 100 * p)))
      by (apply Rdiv_lt_0_compat; assumption).
    destruct (Hbeyond H _ HH) as [near Hnear]; [lra | lra |].
    exists H, near. split; assumption.
  - intros fd s Hs Hlt Hbelow.
    assert (Hs_pos : 0 < s) by lra.
    assert (HNcs : 0 < f / A * (225 / 100 * p) * s)
      by (apply Rmult_lt_0_compat; assumption).
    assert (Hsd : 0 < f * f - f / A * (225 / 100 * p) * s).
    { apply (Rmult_lt_compat_r (f / A * (225 / 100 * p))) in Hbelow; [| lra].
      rewrite div_mul_cancel in Hbelow by lra. lra. }
    assert (Hnum : 0 < s * (f * f)) by (apply Rmult_lt_0_compat; assumption).
    destruct (depth_of_field_shape self f A p Hcfa Hf HA Hp f_pos A_pos p_pos
                fd s Hs Hlt) as [near [far [Heq [Hnear [Hfin _]]]]].
    exists near, far, (s * (f * f) / (f * f + f / A * (225 / 100 * p) * s)),
      (s * (f * f) / (f * f - f / A * (225 / 100 * p) * s)).
    split; [exact Heq |]. split; [exact Hnear |]. split; [exact (Hfin Hsd) |].
    split; [apply Rdiv_lt_0_compat; lra |]. split.
    + apply (Rmult_lt_reg_r (f * f + f / A * (225 / 100 * p) * s)); [lra |].
      rewrite div_mul_cancel by lra. apply Rmult_lt_compat_l; lra.
    + apply (Rmult_lt_reg_r (f * f - f / A * (225 / 100 * p) * s)); [lra |].
      rewrite div_mul_cancel by lra. apply Rmult_lt_compat_l; lra.
  - exact Hbeyond.
Qed.

Lemma GetDepthOfField_hyperfocal_witness :
  exists near far n r,
    GetDepthOfField (test_camera "rectilinear") (meters 1) = ok (near, far)
    /\ is_length near n /\ is_length far r
    /\ 0 < n /\ n < 1 /\ 1 < r.
Proof.
  destruct (GetDepthOfField_hyperfocal (test_camera "rectilinear")
              (/ 100) (/ 200) (/ 200000) (test_camera_thin_lens "rectilinear"))
    as [_ [Hbelow _]].
  apply (Hbelow (meters 1) 1 (is_length_meters 1)); lra.
Defined.

(** C2, as stated, fails: the camera of the tests has hyperfocal distance
    4009/900 m (about 4.454 m); focused at 4.45 m, above the focal length
    and strictly below the hyperfocal distance, the far limit is infinite. *)
Lemma GetDepthOfField_below_hyperfocal_infinite :
  exists H near far,
    GetHyperfocalDistance (test_camera "rectilinear") = ok H
    /\ pq.gt (meters (445 / 100)) (focal_length (lens (test_camera "rectilinear")))
       = ok true
    /\ pq.lt (meters (445 / 100)) H = ok true
    /\ GetDepthOfField (test_camera "rectilinear") (meters (445 / 100))
       = ok (near, far)
    /\ pq.magnitude far = PInf.
Proof.
  pose proof (test_camera_thin_lens "rectilinear") as [Hcfa Hf HA Hp f_pos A_pos p_pos].
  destruct (hyperfocal_shape _ _ _ _ Hcfa Hf HA Hp f_pos A_pos p_pos)
    as [H [HeqH [HH _]]].
  pose proof (is_length_meters (445 / 100)) as Hs.
  destruct (depth_of_field_shape _ _ _ _ Hcfa Hf HA Hp f_pos A_pos p_pos
              (meters (445 / 100)) (445 / 100) Hs) as [near [far [Heq [_ [_ Hinf]]]]];
    [lra |].
  exists H, near, far. split; [exact HeqH |]. split; [| split; [| split]].
  - rewrite (gt_measures _ _ 1 _ _ Hs Hf).
    destruct (Rlt_dec _ _); [reflexivity | lra].
  - rewrite (lt_measures _ _ 1 _ _ Hs HH).
    destruct (Rlt_dec _ _); [reflexivity | lra].
  - exact Heq.
  - rewrite Hinf; [reflexivity | lra].
Qed.

(** C7.  For every camera, [GetDepthOfField] at a focus distance that does
    not exceed the focal length fails its assertion: it raises
    [AssertionError] and returns no pair. *)
Theorem GetDepthOfField_precondition
    (self : Camera) (focus_distance : pq.Quantity) (f s : R) :
  is_length (focal_length (lens self)) f -> is_length focus_distance s ->
  s <= f ->
  GetDepthOfField self focus_distance = raise AssertionError
  /\ forall near_far, GetDepthOfField self focus_distance <> ok near_far.
Proof.
  intros Hf Hs Hle.
  assert (Heq : GetDepthOfField self focus_distance = raise AssertionError).
  { unfold GetDepthOfField. rewrite (gt_measures _ _ 1 s f Hs Hf).
    destruct (Rlt_dec f s); [lra | reflexivity]. }
  split; [exact Heq |].
  intros near_far. rewrite Heq. discriminate.
Qed.

Lemma GetDepthOfField_precondition_witness :
  GetDepthOfField (test_camera "rectilinear") (meters (/ 100)) = raise AssertionError
  /\ forall near_far,
       GetDepthOfField (test_camera "rectilinear") (meters (/ 100)) <> ok near_far.
Proof.
  apply (GetDepthOfField_precondition (test_camera "rectilinear") (meters (/ 100))
           (/ 100) (/ 100)).
  - apply test_focal_length_is.
  - apply is_length_meters.
  - lra.
Defined.

(** C8.  Two cameras that differ in nothing but the projection of the lens
    get the same result from [GetHyperfocalDistance] and, at every focus
    distance, the same result from [GetDepthOfField]. *)
Theorem projection_independence
    (name : string) (sensor : Sensor)
    (lens_name : string) (focal_length aperture_diameter : pq.Quantity)
    (projection1 projection2 : string) (focus_distance : pq.Quantity) :
  let camera1 :=
    mkCamera name sensor (mkLens lens_name focal_length aperture_diameter projection1) in
  let camera2 :=
    mkCamera name sensor (mkLens lens_name focal_length aperture_diameter projection2) in
  GetHyperfocalDistance camera1 = GetHyperfocalDistance camera2
  /\ GetDepthOfField camera1 focus_distance = GetDepthOfField camera2 focus_distance.
Proof.
  intros camera1 camera2. split; reflexivity.
Qed.

(** ** Unsupported variants *)

(** C4, what the code does.  [camera.py] never defines the name [Error]
    that both [raise] statements call, so a sensor whose [cfa] is not
    ['bayer'] and a lens whose projection is neither ['rectilinear'] nor
    ['equidistant'] fail with [NameError: name 'Error' is not defined]; the
    exception carries neither the field nor the offending value. *)
Theorem unknown_variant_NameError
    (s : Sensor) (l : Lens) (focal_plane_length : pq.Quantity) :
  cfa s <> "bayer" ->
  projection l <> "rectilinear" -> projection l <> "equidistant" ->
  circle_of_confusion_diameter s = raise (NameError "Error")
  /\ _GetAngleOfView l focal_plane_length = raise (NameError "Error").
Proof.
  intros Hcfa Hrect Hequi.
  apply String.eqb_neq in Hcfa, Hrect, Hequi.
  unfold circle_of_confusion_diameter, _GetAngleOfView.
  rewrite Hcfa, Hrect, Hequi. split; reflexivity.
Qed.

Lemma unknown_variant_NameError_witness :
  circle_of_confusion_diameter
    (mkSensor "s" (pq.mul (pq.of_float 5) pq.micron) 4000 3000 "foveon")
  = raise (NameError "Error")
  /\ _GetAngleOfView (test_lens "stereographic") (sensor_width test_sensor)
     = raise (NameError "Error").
Proof.
  apply (unknown_variant_NameError
           (mkSensor "s" (pq.mul (pq.of_float 5) pq.micron) 4000 3000 "foveon")
           (test_lens "stereographic") (sensor_width test_sensor));
    simpl; discriminate.
Defined.

(** ** Angle of view *)

Section AngleOfView.

Lemma dim_mul_dimensionless_l (d : pq.Dimensionality) :
  pq.dim_mul pq.dimensionless d = d.
Proof. destruct d. reflexivity. Qed.

Lemma Ratan2_pos (y x : R) : 0 < x -> Ratan2 y x = atan (y / x).
Proof. intros Hx. unfold Ratan2. rewrite Rsign_pos by assumption. reflexivity. Qed.

(** What the equidistant branch returns. *)
Lemma equidistant_shape (l : Lens) (L : pq.Quantity) (f x : R) :
  projection l = "equidistant" -> is_length (focal_length l) f -> 0 < f ->
  is_length L x ->
  exists q,
    _GetAngleOfView l L = ok q
    /\ pq.dimensionality q = pq.dimensionality pq.radian
    /\ pq.magnitude q = Fin (x / f).
Proof.
  intros Hproj [Hkf [rf [Hmf Hxf]]] Hpos [HkL [rL [HmL HxL]]].
  unfold _GetAngleOfView. rewrite Hproj. simpl.
  eexists. split; [reflexivity |].
  pose proof (si_factor_pos (pq.dimensionality (focal_length l))) as Hsf.
  assert (Hrf : rf <> 0) by (intros ->; lra).
  split.
  - simpl. unfold pq.simplified_dim. rewrite length_exponent_div, HkL, Hkf.
    reflexivity.
  - simpl. rewrite HmL, Hmf, fdiv_fin by assumption. simpl.
    rewrite si_factor_div. f_equal. subst x f. field. split; lra.
Qed.

(** What the rectilinear branch returns: twice [arctan2] of the magnitude
    [r] of the focal-plane length and of twice the magnitude [rf] of the
    focal length rescaled to the units of the focal-plane length. *)
Lemma rectilinear_shape (l : Lens) (L : pq.Quantity) (f x : R) :
  projection l = "rectilinear" -> is_length (focal_length l) f -> 0 < f ->
  is_length L x ->
  exists q f' r rf,
    _GetAngleOfView l L = ok q
    /\ pq.dimensionality q = pq.dimensionality pq.radian
    /\ pq.magnitude L = Fin r
    /\ pq.rescale (focal_length l) (pq.units L) = ok f'
    /\ pq.magnitude f' = Fin rf
    /\ pq.magnitude q = Fin (2 * Ratan2 r (2 * rf))
    /\ 2 * Ratan2 r (2 * rf) = 2 * atan (x / (2 * f)).
Proof.
  intros Hproj Hf Hpos HL.
  destruct (measures_rescale (focal_length l) (pq.units L) 1 f Hf) as [f' [Hres [Hf' Hd]]].
  { apply HL. }
  destruct HL as [HkL [rL [HmL HxL]]]. destruct Hf' as [_ [rf [Hmf Hxf]]].
  simpl in Hd. rewrite Hd in Hxf.
  pose proof (si_factor_pos (pq.dimensionality L)) as HsL.
  assert (Hrf : 0 < rf) by nra.
  unfold _GetAngleOfView. rewrite Hproj, Hres. simpl.
  unfold pq.arctan2. simpl. rewrite dim_mul_dimensionless_l, Hd, dim_eqb_refl. simpl.
  rewrite HmL, Hmf. simpl.
  eexists. exists f', rL, rf. split; [reflexivity |]. simpl.
  split; [reflexivity |]. split; [reflexivity |]. split; [reflexivity |].
  split; [assumption |]. split; [f_equal; ring |].
  rewrite Ratan2_pos by lra. do 2 f_equal. subst x f. field. split; lra.
Qed.

End AngleOfView.

Section SensorGeometry.

Lemma sensor_width_is (s : Sensor) (p : R) :
  is_length (pixel_pitch s) p ->
  is_length (sensor_width s) (p * IZR (width_pixels s)).
Proof.
  intros Hp. apply (measures_mul _ _ 1 0); [exact Hp | apply measures_of_int].
Qed.

Lemma sensor_height_is (s : Sensor) (p : R) :
  is_length (pixel_pitch s) p ->
  is_length (sensor_height s) (p * IZR (height_pixels s)).
Proof.
  intros Hp. apply (measures_mul _ _ 1 0); [exact Hp | apply measures_of_int].
Qed.

End SensorGeometry.

Section ArcTangent.

(** [atan] comes as close to [PI / 2] as one likes. *)
Lemma atan_limit (eps : R) :
  0 < eps -> exists T, 0 < T /\ forall t, T < t -> PI / 2 - eps < atan t.
Proof.
  intros Heps. pose proof PI_RGT_0 as HPI.
  destruct (Rlt_dec eps (PI / 2)) as [Hsmall | Hlarge].
  - exists (tan (PI / 2 - eps)). split.
    + apply tan_gt_0; lra.
    + intros t Ht. rewrite <- (atan_tan (PI / 2 - eps)) by lra.
      apply atan_increasing. exact Ht.
  - exists 1. split; [lra |]. intros t Ht.
    pose proof (atan_increasing 0 t) as Hinc. rewrite atan_0 in Hinc. lra.
Qed.

End ArcTangent.

(** C5.  For a lens with projection ['rectilinear'] and focal length
    [f > 0]: the angle of view of a focal-plane length [L] is, in radians,
    twice [arctan2] of [L] and twice the focal length converted to the units
    of [L]; for [L > 0] it is strictly below [PI]; it is strictly increasing
    in [L]; and it exceeds [PI - eps], for any [eps > 0], once [L] is large
    enough, so [PI] is approached in the limit only. *)
Theorem rectilinear_angle_of_view (l : Lens) (f : R) :
  projection l = "rectilinear" -> is_length (focal_length l) f -> 0 < f ->
  (forall L x, is_length L x ->
     exists q f' r rf,
       _GetAngleOfView l L = ok q
       /\ pq.dimensionality q = pq.dimensionality pq.radian
       /\ pq.magnitude L = Fin r
       /\ pq.rescale (focal_length l) (pq.units L) = ok f'
       /\ pq.magnitude f' = Fin rf
       /\ pq.magnitude q = Fin (2 * Ratan2 r (2 * rf)))
  /\ (forall L x, is_length L x -> 0 < x ->
        exists q a,
          _GetAngleOfView l L = ok q /\ pq.magnitude q = Fin a
          /\ 0 < a /\ a < PI)
  /\ (forall L1 L2 x1 x2, is_length L1 x1 -> is_length L2 x2 -> x1 < x2 ->
        exists q1 q2 a1 a2,
          _GetAngleOfView l L1 = ok q1 /\ pq.magnitude q1 = Fin a1
          /\ _GetAngleOfView l L2 = ok q2 /\ pq.magnitude q2 = Fin a2
          /\ a1 < a2)
  /\ (forall eps, 0 < eps ->
        exists X, forall L x, is_length L x -> X < x ->
          exists q a,
            _GetAngleOfView l L = ok q /\ pq.magnitude q = Fin a
            /\ PI - eps < a /\ a < PI).
Proof.
  intros Hproj Hf Hpos.
  assert (Hangle : forall L x, is_length L x ->
            exists q, _GetAngleOfView l L = ok q
                      /\ pq.magnitude q = Fin (2 * atan (x / (2 * f)))).
  { intros L x HL.
    destruct (rectilinear_shape l L f x Hproj Hf Hpos HL)
      as [q [f' [r [rf [Heq [_ [_ [_ [_ [Hm Ha]]]]]]]]]].
    exists q. split; [exact Heq |]. rewrite Hm, Ha. reflexivity. }
  split; [| split; [| split]].
  - intros L x HL.
    destruct (rectilinear_shape l L f x Hproj Hf Hpos HL)
      as [q [f' [r [rf [Heq [Hd [Hr [Hres [Hrf [Hm _]]]]]]]]]].
    exists q, f', r, rf. repeat (split; [assumption |]). assumption.
  - intros L x HL Hx. destruct (Hangle L x HL) as [q [Heq Hm]].
    exists q, (2 * atan (x / (2 * f))). split; [exact Heq |]. split; [exact Hm |].
    pose proof (atan_bound (x / (2 * f))) as Hb.
    pose proof (atan_increasing 0 (x / (2 * f))) as Hinc. rewrite atan_0 in Hinc.
    assert (0 < x / (2 * f)) by (apply Rdiv_lt_0_compat; lra).
    lra.
  - intros L1 L2 x1 x2 H1 H2 Hlt.
    destruct (Hangle L1 x1 H1) as [q1 [Heq1 Hm1]].
    destruct (Hangle L2 x2 H2) as [q2 [Heq2 Hm2]].
    exists q1, q2, (2 * atan (x1 / (2 * f))), (2 * atan (x2 / (2 * f))).
    repeat (split; [assumption |]).
    assert (x1 / (2 * f) < x2 / (2 * f)).
    { unfold Rdiv. apply Rmult_lt_compat_r; [apply Rinv_0_lt_compat; lra | exact Hlt]. }
    pose proof (atan_increasing _ _ H). lra.
  - intros eps Heps.
    destruct (atan_limit (eps / 2)) as [T [HT Hlim]]; [lra |].
    exists (T * (2 * f)). intros L x HL Hx.
    destruct (Hangle L x HL) as [q [Heq Hm]].
    exists q, (2 * atan (x / (2 * f))). split; [exact Heq |]. split; [exact Hm |].
    assert (Hgt : T < x / (2 * f)).
    { apply (Rmult_lt_reg_r (2 * f)); [lra |]. rewrite div_mul_cancel by lra. exact Hx. }
    pose proof (Hlim _ Hgt). pose proof (atan_bound (x / (2 * f))). lra.
Qed.

Lemma rectilinear_angle_of_view_witness :
  exists q a,
    _GetAngleOfView (test_lens "rectilinear") (sensor_width test_sensor) = ok q
    /\ pq.magnitude q = Fin a /\ 0 < a /\ a < PI.
Proof.
  destruct (rectilinear_angle_of_view (test_lens "rectilinear") (/ 100) eq_refl
              test_focal_length_is) as [_ [Hbound _]]; [lra |].
  apply (Hbound (sensor_width test_sensor) (/ 200000 * IZR (width_pixels test_sensor))).
  - apply sensor_width_is. apply (test_camera_thin_lens "rectilinear").
  - simpl. lra.
Defined.

(** C6.  For a lens with projection ['equidistant'] and focal length
    [f > 0]: the angle of view of a focal-plane length [L] is [L / f]
    radians, and it is linear in [L]: the focal-plane length [k * L] gets
    [k] times the angle, so that doubling [L] doubles the angle. *)
Theorem equidistant_angle_of_view (l : Lens) (L : pq.Quantity) (f x : R) :
  projection l = "equidistant" -> is_length (focal_length l) f -> 0 < f ->
  is_length L x ->
  (exists q,
     _GetAngleOfView l L = ok q
     /\ pq.dimensionality q = pq.dimensionality pq.radian
     /\ pq.magnitude q = Fin (x / f))
  /\ (exists q2,
        _GetAngleOfView l (pq.mul (pq.of_float 2) L) = ok q2
        /\ pq.dimensionality q2 = pq.dimensionality pq.radian
        /\ pq.magnitude q2 = Fin (2 * (x / f)))
  /\ (forall k, exists qk,
        _GetAngleOfView l (pq.mul (pq.of_float k) L) = ok qk
        /\ pq.dimensionality qk = pq.dimensionality pq.radian
        /\ pq.magnitude qk = Fin (k * (x / f))).
Proof.
  intros Hproj Hf Hpos HL.
  assert (Hscale : forall k, exists qk,
             _GetAngleOfView l (pq.mul (pq.of_float k) L) = ok qk
             /\ pq.dimensionality qk = pq.dimensionality pq.radian
             /\ pq.magnitude qk = Fin (k * (x / f))).
  { intros k.
    assert (HkL : is_length (pq.mul (pq.of_float k) L) (k * x)).
    { apply (measures_mul _ _ 0 1); [apply measures_of_float | exact HL]. }
    destruct (equidistant_shape l _ f _ Hproj Hf Hpos HkL) as [qk [Heq [Hd Hm]]].
    exists qk. split; [exact Heq |]. split; [exact Hd |].
    rewrite Hm. f_equal. field. lra. }
  split; [| split].
  - apply equidistant_shape; assumption.
  - apply Hscale.
  - exact Hscale.
Qed.

Lemma equidistant_angle_of_view_witness :
  exists q q2,
    _GetAngleOfView (test_lens "equidistant") (sensor_width test_sensor) = ok q
    /\ pq.magnitude q = Fin 2
    /\ _GetAngleOfView (test_lens "equidistant")
         (pq.mul (pq.of_float 2) (sensor_width test_sensor)) = ok q2
    /\ pq.magnitude q2 = Fin 4.
Proof.
  destruct (equidistant_angle_of_view (test_lens "equidistant")
              (sensor_width test_sensor) (/ 100) (/ 200000 * 4000) eq_refl
              test_focal_length_is) as [[q [Heq [_ Hm]]] [[q2 [Heq2 [_ Hm2]]] _]].
  - lra.
  - apply (sensor_width_is test_sensor). apply (test_camera_thin_lens "rectilinear").
  - exists q, q2. split; [exact Heq |]. split; [| split; [exact Heq2 |]].
    + rewrite Hm. f_equal. lra.
    + rewrite Hm2. f_equal. lra.
Defined.

(** ** 35 mm equivalent focal length *)

Section Diagonal.

Lemma sqrt_scale (a b s : R) :
  0 < s -> sqrt (a * s * (a * s) + b * s * (b * s)) = sqrt (a * a + b * b) * s.
Proof.
  intros Hs.
  replace (a * s * (a * s) + b * s * (b * s)) with ((a * a + b * b) * (s * s)) by ring.
  rewrite sqrt_mult_alt by nra. rewrite sqrt_square by lra. reflexivity.
Qed.

Lemma measures_hypot (q1 q2 : pq.Quantity) (k : Z) (x1 x2 : R) :
  measures q1 k x1 -> measures q2 k x2 ->
  pq.dimensionality q1 = pq.dimensionality q2 ->
  exists q, pq.hypot q1 q2 = ok q /\ measures q k (sqrt (x1 * x1 + x2 * x2)).
Proof.
  intros [Hk1 [r1 [Hm1 Hx1]]] [Hk2 [r2 [Hm2 Hx2]]] Hd.
  unfold pq.hypot. rewrite <- Hd, dim_eqb_refl.
  eexists. split; [reflexivity |]. split; [assumption |].
  eexists. simpl. rewrite Hm1, Hm2. split; [reflexivity |].
  rewrite <- Hd in Hx2. subst x1 x2. apply sqrt_scale. apply si_factor_pos.
Qed.

(** The diagonal of a sensor of pixel pitch [p]. *)
Lemma sensor_diagonal_is (s : Sensor) (p : R) :
  is_length (pixel_pitch s) p ->
  exists diagonal,
    sensor_diagonal s = ok diagonal
    /\ is_length diagonal
         (sqrt (p * IZR (height_pixels s) * (p * IZR (height_pixels s))
                + p * IZR (width_pixels s) * (p * IZR (width_pixels s)))).
Proof.
  intros Hp. unfold sensor_diagonal.
  apply measures_hypot;
    [apply sensor_height_is; exact Hp | apply sensor_width_is; exact Hp | reflexivity].
Qed.

Lemma diagonal_pos (p h w : R) :
  0 < p -> 0 < h -> 0 < w -> 0 < sqrt (p * h * (p * h) + p * w * (p * w)).
Proof.
  intros Hp Hh Hw. apply sqrt_lt_R0.
  assert (0 < p * h) by (apply Rmult_lt_0_compat; assumption).
  assert (0 < p * w) by (apply Rmult_lt_0_compat; assumption).
  assert (0 < p * h * (p * h)) by (apply Rmult_lt_0_compat; assumption).
  assert (0 < p * w * (p * w)) by (apply Rmult_lt_0_compat; assumption).
  lra.
Qed.

(** The result of [Get35mmEquivalentFocalLength] for a sensor diagonal of
    [d] metres and a focal length of [f] metres. *)
Lemma equivalent_focal_length_shape (self : Camera) (diagonal : pq.Quantity) (d f : R) :
  sensor_diagonal (sensor self) = ok diagonal -> is_length diagonal d -> 0 < d ->
  is_length (focal_length (lens self)) f ->
  exists q,
    Get35mmEquivalentFocalLength self = ok q
    /\ pq.dimensionality q = pq.dimensionality pq.mm
    /\ is_length q (4327 / 100 * / 1000 / d * f).
Proof.
  intros Hdiag Hd Hpos Hf. unfold Get35mmEquivalentFocalLength. rewrite Hdiag. simpl.
  assert (Hc : measures (pq.div (pq.mul (pq.of_float (4327 / 100)) pq.mm) diagonal)
                        0 (4327 / 100 * / 1000 / d)).
  { apply (measures_div _ _ (0 + 1) 1); [| exact Hd | lra].
    apply measures_mul; [apply measures_of_float | apply is_length_mm]. }
  pose proof (measures_mul _ _ _ _ _ _ Hc Hf) as Hprod.
  destruct (measures_rescale _ pq.mm _ _ Hprod eq_refl) as [q [Heq [Hq Hdim]]].
  exists q. split; [exact Heq |]. split; assumption.
Qed.

End Diagonal.

(** C9.  For a camera with positive pixel pitch [p], pixel counts and focal
    length [f]: the sensor diagonal is [hypot] of [p * height_pixels] and
    [p * width_pixels], say [d] metres; [Get35mmEquivalentFocalLength]
    returns [(43.27 mm / d) * f] carrying the unit millimetre, so its
    magnitude is [43.27 / d_mm * f_mm] with both lengths in millimetres; and
    a camera with the same focal length and half the diagonal gets twice the
    result. *)
Theorem Get35mmEquivalentFocalLength_formula (self : Camera) (p f : R) :
  is_length (pixel_pitch (sensor self)) p ->
  is_length (focal_length (lens self)) f ->
  0 < p -> 0 < f ->
  (0 < width_pixels (sensor self))%Z -> (0 < height_pixels (sensor self))%Z ->
  exists diagonal d q e,
    sensor_diagonal (sensor self) = ok diagonal
    /\ is_length diagonal d
    /\ d = sqrt (p * IZR (height_pixels (sensor self))
                 * (p * IZR (height_pixels (sensor self)))
                 + p * IZR (width_pixels (sensor self))
                   * (p * IZR (width_pixels (sensor self))))
    /\ Get35mmEquivalentFocalLength self = ok q
    /\ pq.dimensionality q = pq.dimensionality pq.mm
    /\ is_length q e
    /\ e = 4327 / 100 * / 1000 / d * f
    /\ pq.magnitude q = Fin (4327 / 100 / (d * 1000) * (f * 1000))
    /\ (forall other diagonal',
          is_length (focal_length (lens other)) f ->
          sensor_diagonal (sensor other) = ok diagonal' ->
          is_length diagonal' (d / 2) ->
          exists q',
            Get35mmEquivalentFocalLength other = ok q'
            /\ pq.dimensionality q' = pq.dimensionality pq.mm
            /\ is_length q' (2 * e)).
Proof.
  intros Hp Hf p_pos f_pos Hw Hh.
  destruct (sensor_diagonal_is (sensor self) p Hp) as [diagonal [Hdiag Hd]].
  apply IZR_lt in Hw, Hh.
  pose proof (diagonal_pos p _ _ p_pos Hh Hw) as Hd_pos.
  set (d := sqrt _) in *.
  destruct (equivalent_focal_length_shape self diagonal d f Hdiag Hd Hd_pos Hf)
    as [q [Heq [Hdim Hq]]].
  exists diagonal, d, q, (4327 / 100 * / 1000 / d * f).
  split; [exact Hdiag |]. split; [exact Hd |]. split; [reflexivity |].
  split; [exact Heq |]. split; [exact Hdim |]. split; [exact Hq |].
  split; [reflexivity |]. split.
  - destruct Hq as [_ [r [Hm Hx]]]. rewrite Hm. f_equal.
    rewrite Hdim in Hx. unfold pq.si_factor in Hx; simpl in Hx.
    assert (Hr : r = 4327 / 100 * / 1000 / d * f * 1000) by lra.
    rewrite Hr. field. lra.
  - intros other diagonal' Hf' Hdiag' Hd'.
    destruct (equivalent_focal_length_shape other diagonal' (d / 2) f Hdiag' Hd')
      as [q' [Heq' [Hdim' Hq']]]; [lra | exact Hf' |].
    exists q'. split; [exact Heq' |]. split; [exact Hdim' |].
    replace (2 * (4327 / 100 * / 1000 / d * f))
      with (4327 / 100 * / 1000 / (d / 2) * f) by (field; lra).
    exact Hq'.
Qed.

Lemma sqrt_of_square (x y : R) : 0 <= y -> x = y * y -> sqrt x = y.
Proof. intros Hy ->. apply sqrt_square. exact Hy. Qed.

Lemma Get35mmEquivalentFocalLength_formula_witness :
  exists q q',
    Get35mmEquivalentFocalLength (test_camera "rectilinear") = ok q
    /\ pq.dimensionality q = pq.dimensionality pq.mm
    /\ pq.magnitude q = Fin (4327 / 250)
    /\ Get35mmEquivalentFocalLength half_pitch_camera = ok q'
    /\ is_length q' (2 * (4327 / 250 * / 1000)).
Proof.
  pose proof (test_camera_thin_lens "rectilinear") as [_ Hf _ Hp _ _ _].
  destruct (Get35mmEquivalentFocalLength_formula (test_camera "rectilinear")
              (/ 200000) (/ 100) Hp Hf)
    as [diagonal [d [q [e [_ [_ [Hd [Heq [Hdim [_ [He [Hm Hhalf]]]]]]]]]]]];
    [lra | lra | reflexivity | reflexivity |].
  assert (Hd40 : d = / 40).
  { rewrite Hd. apply sqrt_of_square; [lra |]. simpl. lra. }
  assert (Hp' : is_length (pixel_pitch (sensor half_pitch_camera)) (/ 400000)).
  { replace (/ 400000) with (25 / 10 * / 1000000) by lra.
    apply (measures_mul _ _ 0 1); [apply measures_of_float | apply is_length_micron]. }
  destruct (sensor_diagonal_is (sensor half_pitch_camera) _ Hp')
    as [diagonal' [Hdiag' Hd']].
  assert (Hd80 : sqrt (/ 400000 * IZR (height_pixels (sensor half_pitch_camera))
                       * (/ 400000 * IZR (height_pixels (sensor half_pitch_camera)))
                       + / 400000 * IZR (width_pixels (sensor half_pitch_camera))
                         * (/ 400000 * IZR (width_pixels (sensor half_pitch_camera))))
                 = d / 2).
  { apply sqrt_of_square; [lra |]. rewrite Hd40. simpl. lra. }
  rewrite Hd80 in Hd'.
  destruct (Hhalf half_pitch_camera diagonal' Hf Hdiag' Hd') as [q' [Heq' [_ Hq']]].
  exists q, q'. split; [exact Heq |]. split; [exact Hdim |]. split; [| split].
  - rewrite Hm, Hd40. f_equal. lra.
  - exact Heq'.
  - replace (2 * (4327 / 250 * / 1000)) with (2 * e); [exact Hq' |].
    rewrite He, Hd40. lra.
Defined.

(** ** The f-number *)

(** X1.  A lens built with [aperture_diameter = focal_length / n], as the tests
    build theirs, has f-number [n]: for a focal length of finite, non-zero
    magnitude and [n <> 0], [lens.f_number] is the plain number [n]. *)
Theorem f_number_round_trip
    (name : string) (focal_length : pq.Quantity) (r n : R) (projection : string) :
  pq.magnitude focal_length = Fin r -> r <> 0 -> n <> 0 ->
  f_number (mkLens name focal_length (pq.div focal_length (pq.of_float n)) projection)
  = pq.of_float n.
Proof.
  intros Hm Hr Hn. unfold f_number, pq.div. simpl. rewrite Hm.
  rewrite (fdiv_fin r n) by assumption.
  assert (Hq : r / n <> 0).
  { unfold Rdiv. apply Rmult_integral_contrapositive_currified;
      [assumption | apply Rinv_neq_0_compat; assumption]. }
  rewrite fdiv_fin by assumption.
  unfold pq.of_float, pq.scalar. f_equal.
  - f_equal. field. split; assumption.
  - unfold pq.dim_div, pq.dimensionless; simpl. f_equal; lia.
Qed.

Lemma f_number_round_trip_witness :
  f_number (test_lens "rectilinear") = pq.of_float 2.
Proof.
  apply (f_number_round_trip "l" test_focal_length (10 * 1) 2 "rectilinear").
  - reflexivity.
  - lra.
  - lra.
Defined.

(** ** Ground sample distance *)

Section GroundSampleDistance.

Lemma dim_mul_dimensionless_r (d : pq.Dimensionality) :
  pq.dim_mul d pq.dimensionless = d.
Proof. destruct d. unfold pq.dim_mul, pq.dimensionless; simpl. f_equal; lia. Qed.

Lemma dim_div_dimensionless_r (d : pq.Dimensionality) :
  pq.dim_div d pq.dimensionless = d.
Proof. destruct d. unfold pq.dim_div, pq.dimensionless; simpl. f_equal; lia. Qed.

(** The tangent of half an angle given in radians. *)
Lemma tan_half_radians (q : pq.Quantity) (a : R) :
  pq.dimensionality q = pq.dimensionality pq.radian -> pq.magnitude q = Fin a ->
  pq.tan (pq.div q (pq.of_float 2)) = ok (pq.of_float (tan (a / 2))).
Proof.
  intros Hd Hm. unfold pq.tan, pq.eq, pq.units, pq.rescale. simpl.
  rewrite dim_div_dimensionless_r, Hd. simpl.
  destruct (Req_dec_T 1 1) as [_ | Hne]; [| contradiction].
  rewrite Hm, fdiv_fin by lra. reflexivity.
Qed.

(** [atan] lies below the identity on positive numbers. *)
Lemma atan_lt_id (x : R) : 0 < x -> atan x < x.
Proof.
  intros Hx.
  destruct (MVT_cor2 atan (fun c => / (1 + c ^ 2)) 0 x Hx) as [c [Heq [Hc0 Hcx]]].
  { intros c _. apply derivable_pt_lim_atan. }
  rewrite atan_0 in Heq.
  assert (Hinv : / (1 + c ^ 2) < 1).
  { rewrite <- Rinv_1 at 2. apply Rinv_lt_contravar; simpl; nra. }
  nra.
Qed.

(** The tangent lies above the identity on the first quadrant. *)
Lemma tan_gt_id (y : R) : 0 < y -> y < PI / 2 -> y < tan y.
Proof.
  intros H0 H1. pose proof (tan_gt_0 y H0 H1) as Ht.
  pose proof (atan_lt_id (tan y) Ht) as Hlt.
  rewrite atan_tan in Hlt by lra. exact Hlt.
Qed.

(** The ground sample distance once the instantaneous angle of view is
    known to be [a] radians. *)
Lemma ground_sample_distance_shape
    (self : Camera) (distance ifov : pq.Quantity) (d a : R) :
  GetInstantaneousAngleOfView self = ok ifov ->
  pq.dimensionality ifov = pq.dimensionality pq.radian -> pq.magnitude ifov = Fin a ->
  is_length distance d ->
  exists g,
    GetGroundSampleDistance self distance = ok g
    /\ is_length g (2 * d * tan (a / 2))
    /\ pq.dimensionality g = pq.dimensionality distance.
Proof.
  intros Hifov Hd Hm Hdist. unfold GetGroundSampleDistance.
  rewrite Hifov. simpl. rewrite (tan_half_radians ifov a Hd Hm). simpl.
  eexists. split; [reflexivity |]. split.
  - apply (measures_mul _ _ (0 + 1) 0); [| apply measures_of_float].
    apply measures_mul; [apply measures_of_float | exact Hdist].
  - simpl. rewrite dim_mul_dimensionless_l, dim_mul_dimensionless_r. reflexivity.
Qed.

End GroundSampleDistance.

(** X2.  With a rectilinear lens of focal length [f > 0] the ground sample
    distance at a distance [d] is exactly [d * pixel_pitch / f], the
    footprint of one pixel by similar triangles, and it carries the units of
    the distance passed in. *)
Theorem GetGroundSampleDistance_rectilinear
    (self : Camera) (distance : pq.Quantity) (f p d : R) :
  projection (lens self) = "rectilinear" ->
  is_length (focal_length (lens self)) f -> 0 < f ->
  is_length (pixel_pitch (sensor self)) p -> is_length distance d ->
  exists g,
    GetGroundSampleDistance self distance = ok g
    /\ is_length g (d * p / f)
    /\ pq.dimensionality g = pq.dimensionality distance.
Proof.
  intros Hproj Hf Hpos Hp Hdist.
  destruct (rectilinear_shape (lens self) (pixel_pitch (sensor self)) f p Hproj Hf Hpos Hp)
    as [q [f' [r [rf [Heq [Hd [_ [_ [_ [Hm Ha]]]]]]]]]].
  rewrite Ha in Hm.
  destruct (ground_sample_distance_shape self distance q d _ Heq Hd Hm Hdist)
    as [g [Hg [Hval Hdim]]].
  exists g. split; [exact Hg |]. split; [| exact Hdim].
  replace (d * p / f) with (2 * d * tan (2 * atan (p / (2 * f)) / 2)); [exact Hval |].
  replace (2 * atan (p / (2 * f)) / 2) with (atan (p / (2 * f))) by lra.
  rewrite tan_atan. field. lra.
Qed.

Lemma GetGroundSampleDistance_rectilinear_witness :
  exists g,
    GetGroundSampleDistance (test_camera "rectilinear") (meters 1) = ok g
    /\ is_length g (/ 2000)
    /\ pq.dimensionality g = pq.dimensionality (meters 1).
Proof.
  pose proof (test_camera_thin_lens "rectilinear") as [_ Hf _ Hp _ _ _].
  destruct (GetGroundSampleDistance_rectilinear (test_camera "rectilinear") (meters 1)
              (/ 100) (/ 200000) 1 eq_refl Hf) as [g [Hg [Hval Hdim]]];
    [lra | exact Hp | apply is_length_meters |].
  exists g. split; [exact Hg |]. split; [| exact Hdim].
  replace (/ 2000) with (1 * / 200000 / / 100) by lra. exact Hval.
Defined.

(** X3.  With an equidistant lens of focal length [f > 0] the ground sample
    distance at a distance [d] is [2 d tan (p / (2 f))] for a pixel pitch
    [p], in the units of the distance passed in; for [d > 0] and
    [0 < p < PI f] this is strictly more than the [d p / f] a rectilinear
    lens of the same focal length gives. *)
Theorem GetGroundSampleDistance_equidistant
    (self : Camera) (distance : pq.Quantity) (f p d : R) :
  projection (lens self) = "equidistant" ->
  is_length (focal_length (lens self)) f -> 0 < f ->
  is_length (pixel_pitch (sensor self)) p -> is_length distance d ->
  exists g,
    GetGroundSampleDistance self distance = ok g
    /\ is_length g (2 * d * tan (p / (2 * f)))
    /\ pq.dimensionality g = pq.dimensionality distance
    /\ (0 < d -> 0 < p -> p < PI * f -> d * p / f < 2 * d * tan (p / (2 * f))).
Proof.
  intros Hproj Hf Hpos Hp Hdist.
  destruct (equidistant_shape (lens self) (pixel_pitch (sensor self)) f p Hproj Hf Hpos Hp)
    as [q [Heq [Hd Hm]]].
  destruct (ground_sample_distance_shape self distance q d _ Heq Hd Hm Hdist)
    as [g [Hg [Hval Hdim]]].
  assert (Hhalf : p / f / 2 = p / (2 * f)) by (field; lra).
  rewrite Hhalf in Hval.
  exists g. split; [exact Hg |]. split; [exact Hval |]. split; [exact Hdim |].
  intros Hd_pos Hp_pos Hp_lt.
  assert (Hy0 : 0 < p / (2 * f)) by (apply Rdiv_lt_0_compat; lra).
  assert (Hy1 : p / (2 * f) < PI / 2).
  { apply (Rmult_lt_reg_r (2 * f)); [lra |]. rewrite div_mul_cancel by lra.
    replace (PI / 2 * (2 * f)) with (PI * f) by field. exact Hp_lt. }
  pose proof (tan_gt_id _ Hy0 Hy1) as Htan.
  replace (d * p / f) with (2 * d * (p / (2 * f))) by (field; lra).
  apply Rmult_lt_compat_l; lra.
Qed.

Lemma GetGroundSampleDistance_equidistant_witness :
  exists g,
    GetGroundSampleDistance (test_camera "equidistant") (meters 1) = ok g
    /\ is_length g (2 * 1 * tan (/ 200000 / (2 * / 100)))
    /\ pq.dimensionality g = pq.dimensionality (meters 1).
Proof.
  pose proof (test_camera_thin_lens "equidistant") as [_ Hf _ Hp _ _ _].
  destruct (GetGroundSampleDistance_equidistant (test_camera "equidistant") (meters 1)
              (/ 100) (/ 200000) 1 eq_refl Hf) as [g [Hg [Hval [Hdim _]]]];
    [lra | exact Hp | apply is_length_meters |].
  exists g. split; [exact Hg |]. split; assumption.
Defined.

(** ** More on the depth of field *)

Section DepthOfFieldFacts.

Lemma div_lt_cross (a b c d : R) :
  0 < b -> 0 < d -> a * d < c * b -> a / b < c / d.
Proof.
  intros Hb Hd H.
  apply (Rmult_lt_reg_r b); [exact Hb |]. rewrite div_mul_cancel by lra.
  apply (Rmult_lt_reg_r d); [exact Hd |].
  replace (c / d * b * d) with (c / d * d * b) by ring.
  rewrite div_mul_cancel by lra. exact H.
Qed.

Lemma dim_mul_div_cancel (a b : pq.Dimensionality) :
  pq.dim_div (pq.dim_mul a b) b = a.
Proof.
  destruct a, b. unfold pq.dim_div, pq.dim_mul; simpl. f_equal; lia.
Qed.

(** The units of the pair [GetDepthOfField] returns. *)
Lemma depth_of_field_units
    (self : Camera) (focus_distance : pq.Quantity) (f A p s : R) :
  thin_lens self f A p -> is_length focus_distance s -> f < s ->
  exists near far,
    GetDepthOfField self focus_distance = ok (near, far)
    /\ pq.dimensionality near = pq.dimensionality focus_distance
    /\ (0 < f * f - f / A * (225 / 100 * p) * s ->
        pq.dimensionality far = pq.dimensionality focus_distance).
Proof.
  intros [Hcfa Hf HA Hp f_pos A_pos p_pos] Hs Hlt. unfold GetDepthOfField.
  rewrite (gt_measures _ _ 1 s f Hs Hf).
  destruct (Rlt_dec f s) as [_ | Hn]; [| contradiction]. simpl.
  destruct (coc_bayer _ p Hcfa Hp) as [coc [-> Hcoc]]. simpl.
  assert (HN : measures (f_number (lens self)) 0 (f / A)).
  { apply f_number_measures; [assumption | assumption | lra]. }
  pose proof (measures_mul _ _ _ _ _ _ Hf Hf) as Hf2.
  pose proof (measures_mul _ _ _ _ _ _ (measures_mul _ _ _ _ _ _ HN Hcoc) Hs) as HNcs.
  change (0 + 1 + 1)%Z with (1 + 1)%Z in HNcs.
  destruct (measures_add _ _ _ _ _ Hf2 HNcs) as [den [-> [_ Hden]]]. simpl.
  destruct (measures_sub _ _ _ _ _ Hf2 HNcs) as [sd [-> [Hsd Hsdd]]]. simpl.
  do 2 eexists. split; [reflexivity |]. split.
  - simpl. rewrite Hden. apply dim_mul_div_cancel.
  - intros Hpos. rewrite (gt_number_measures _ _ _ Hsd).
    destruct (Rlt_dec _ _); [| contradiction].
    simpl. rewrite Hsdd. apply dim_mul_div_cancel.
Qed.

End DepthOfFieldFacts.

(** X4.  When the far limit is finite, the focus distance is the harmonic
    mean of the two limits: [1 / near + 1 / far = 2 / s]. *)
Theorem GetDepthOfField_harmonic_mean
    (self : Camera) (focus_distance : pq.Quantity) (f A p s : R) :
  thin_lens self f A p -> is_length focus_distance s -> f < s ->
  0 < f * f - f / A * (225 / 100 * p) * s ->
  exists near far n r,
    GetDepthOfField self focus_distance = ok (near, far)
    /\ is_length near n /\ is_length far r
    /\ / n + / r = 2 / s.
Proof.
  intros [Hcfa Hf HA Hp f_pos A_pos p_pos] Hs Hlt Hsd.
  pose proof (Nc_pos f A p f_pos A_pos p_pos) as HNc.
  assert (Hs_pos : 0 < s) by lra.
  assert (HNcs : 0 < f / A * (225 / 100 * p) * s)
    by (apply Rmult_lt_0_compat; assumption).
  destruct (depth_of_field_shape self f A p Hcfa Hf HA Hp f_pos A_pos p_pos
              focus_distance s Hs Hlt) as [near [far [Heq [Hnear [Hfin _]]]]].
  exists near, far, (s * (f * f) / (f * f + f / A * (225 / 100 * p) * s)),
    (s * (f * f) / (f * f - f / A * (225 / 100 * p) * s)).
  split; [exact Heq |]. split; [exact Hnear |]. split; [exact (Hfin Hsd) |].
  set (k := f / A * (225 / 100 * p) * s) in *.
  field. repeat split; lra.
Qed.

Lemma GetDepthOfField_harmonic_mean_witness :
  exists near far n r,
    GetDepthOfField (test_camera "rectilinear") (meters 1) = ok (near, far)
    /\ is_length near n /\ is_length far r
    /\ / n + / r = 2 / 1.
Proof.
  apply (GetDepthOfField_harmonic_mean (test_camera "rectilinear") (meters 1)
           (/ 100) (/ 200) (/ 200000) 1).
  - apply test_camera_thin_lens.
  - apply is_length_meters.
  - lra.
  - lra.
Defined.

(** X5.  Over finite focus distances beyond the focal length the near
    limit grows strictly with the focus distance and stays strictly below
    [f^2 / (N c)]. *)
Theorem GetDepthOfField_near_monotone
    (self : Camera) (focus1 focus2 : pq.Quantity) (f A p s1 s2 : R) :
  thin_lens self f A p -> is_length focus1 s1 -> is_length focus2 s2 ->
  f < s1 -> s1 < s2 ->
  exists near1 far1 near2 far2 n1 n2,
    GetDepthOfField self focus1 = ok (near1, far1)
    /\ GetDepthOfField self focus2 = ok (near2, far2)
    /\ is_length near1 n1 /\ is_length near2 n2
    /\ n1 < n2 /\ n2 < f * f / (f / A * (225 / 100 * p)).
Proof.
  intros [Hcfa Hf HA Hp f_pos A_pos p_pos] H1 H2 Hlt1 Hlt2.
  pose proof (Nc_pos f A p f_pos A_pos p_pos) as HNc.
  destruct (depth_of_field_shape self f A p Hcfa Hf HA Hp f_pos A_pos p_pos
              focus1 s1 H1 Hlt1) as [near1 [far1 [Heq1 [Hnear1 _]]]].
  destruct (depth_of_field_shape self f A p Hcfa Hf HA Hp f_pos A_pos p_pos
              focus2 s2 H2) as [near2 [far2 [Heq2 [Hnear2 _]]]]; [lra |].
  do 6 eexists. split; [exact Heq1 |]. split; [exact Heq2 |].
  split; [exact Hnear1 |]. split; [exact Hnear2 |].
  set (k := f / A * (225 / 100 * p)) in *.
  assert (Hff : 0 < f * f) by (apply Rmult_lt_0_compat; assumption).
  assert (Hks1 : 0 < k * s1) by (apply Rmult_lt_0_compat; lra).
  assert (Hks2 : 0 < k * s2) by (apply Rmult_lt_0_compat; lra).
  assert (Hffk : 0 < f * f * k) by (apply Rmult_lt_0_compat; lra).
  assert (Hffff : 0 < f * f * (f * f)) by (apply Rmult_lt_0_compat; lra).
  split.
  - apply div_lt_cross; [lra | lra |].
    assert (Hd : 0 < (s2 - s1) * (f * f * (f * f))) by (apply Rmult_lt_0_compat; lra).
    nra.
  - apply div_lt_cross; [lra | lra |]. nra.
Qed.

Lemma GetDepthOfField_near_monotone_witness :
  exists near1 far1 near2 far2 n1 n2,
    GetDepthOfField (test_camera "rectilinear") (meters 1) = ok (near1, far1)
    /\ GetDepthOfField (test_camera "rectilinear") (meters 10) = ok (near2, far2)
    /\ is_length near1 n1 /\ is_length near2 n2
    /\ n1 < n2 /\ n2 < / 100 * / 100 / (/ 100 / / 200 * (225 / 100 * / 200000)).
Proof.
  apply (GetDepthOfField_near_monotone (test_camera "rectilinear") (meters 1) (meters 10)
           (/ 100) (/ 200) (/ 200000) 1 10).
  - apply test_camera_thin_lens.
  - apply is_length_meters.
  - apply is_length_meters.
  - lra.
  - lra.
Defined.

(** X6.  Focused at [f^2 / (N c)], one focal length short of the distance
    [GetHyperfocalDistance] returns, the near limit is exactly half the
    focus distance and the far limit is infinite. *)
Theorem GetDepthOfField_half_rule
    (self : Camera) (focus_distance : pq.Quantity) (f A p s : R) :
  thin_lens self f A p -> is_length focus_distance s -> f < s ->
  s = f * f / (f / A * (225 / 100 * p)) ->
  exists near,
    GetDepthOfField self focus_distance = ok (near, infinite_length)
    /\ is_length near (s / 2).
Proof.
  intros [Hcfa Hf HA Hp f_pos A_pos p_pos] Hs Hlt Hfocus.
  pose proof (Nc_pos f A p f_pos A_pos p_pos) as HNc.
  set (k := f / A * (225 / 100 * p)) in *.
  assert (Hks : k * s = f * f).
  { rewrite Hfocus. field. lra. }
  destruct (depth_of_field_shape self f A p Hcfa Hf HA Hp f_pos A_pos p_pos
              focus_distance s Hs Hlt) as [near [far [Heq [Hnear [_ Hinf]]]]].
  fold k in Hnear, Hinf.
  exists near. split.
  - rewrite Heq, infinite_length_eq, Hinf; [reflexivity | lra].
  - rewrite Hks in Hnear.
    assert (Hff : 0 < f * f) by (apply Rmult_lt_0_compat; assumption).
    replace (s / 2) with (s * (f * f) / (f * f + f * f)); [exact Hnear |].
    apply (Rmult_eq_reg_r (f * f + f * f)); [| lra].
    rewrite div_mul_cancel by lra. lra.
Qed.

Lemma GetDepthOfField_half_rule_witness :
  exists near,
    GetDepthOfField (test_camera "rectilinear") (meters (40 / 9))
    = ok (near, infinite_length)
    /\ is_length near (40 / 9 / 2).
Proof.
  apply (GetDepthOfField_half_rule (test_camera "rectilinear") (meters (40 / 9))
           (/ 100) (/ 200) (/ 200000) (40 / 9)).
  - apply test_camera_thin_lens.
  - apply is_length_meters.
  - lra.
  - lra.
Defined.

(** X7.  The near limit carries the units of the focus distance passed in,
    and so does a finite far limit; an infinite far limit is in metres
    whatever the units of the focus distance. *)
Theorem GetDepthOfField_units
    (self : Camera) (focus_distance : pq.Quantity) (f A p s : R) :
  thin_lens self f A p -> is_length focus_distance s -> f < s ->
  exists near far,
    GetDepthOfField self focus_distance = ok (near, far)
    /\ pq.dimensionality near = pq.dimensionality focus_distance
    /\ (0 < f * f - f / A * (225 / 100 * p) * s ->
        pq.dimensionality far = pq.dimensionality focus_distance)
    /\ (f * f - f / A * (225 / 100 * p) * s <= 0 ->
        pq.dimensionality far = pq.dimensionality pq.m).
Proof.
  intros Htl Hs Hlt.
  destruct (depth_of_field_units self focus_distance f A p s Htl Hs Hlt)
    as [near [far [Heq [Hnear Hfar]]]].
  exists near, far. split; [exact Heq |]. split; [exact Hnear |].
  split; [exact Hfar |].
  intros Hle. destruct Htl as [Hcfa Hf HA Hp f_pos A_pos p_pos].
  destruct (depth_of_field_shape self f A p Hcfa Hf HA Hp f_pos A_pos p_pos
              focus_distance s Hs Hlt) as [near' [far' [Heq' [_ [_ Hinf]]]]].
  rewrite Heq in Heq'. injection Heq' as _ ->.
  rewrite (Hinf Hle). reflexivity.
Qed.

Lemma GetDepthOfField_units_witness :
  exists near far,
    GetDepthOfField (test_camera "rectilinear") (pq.mul (pq.of_float 5000) pq.mm)
    = ok (near, far)
    /\ pq.dimensionality near = pq.dimensionality pq.mm
    /\ pq.dimensionality far = pq.dimensionality pq.m.
Proof.
  assert (Hs : is_length (pq.mul (pq.of_float 5000) pq.mm) (5000 * / 1000)).
  { apply (measures_mul _ _ 0 1); [apply measures_of_float | apply is_length_mm]. }
  destruct (GetDepthOfField_units (test_camera "rectilinear")
              (pq.mul (pq.of_float 5000) pq.mm) (/ 100) (/ 200) (/ 200000)
              (5000 * / 1000) (test_camera_thin_lens "rectilinear") Hs)
    as [near [far [Heq [Hnear [_ Hfar]]]]]; [lra |].
  exists near, far. split; [exact Heq |]. split; [exact Hnear |].
  apply Hfar. lra.
Defined.

(** X8.  Stopping down widens the depth of field: of two cameras with the
    same focal length and pixel pitch focused at the same distance, the one
    with the smaller aperture diameter has the nearer near limit, and, when
    its far limit is finite, the other's is finite too and nearer. *)
Theorem GetDepthOfField_aperture
    (small large : Camera) (focus_distance : pq.Quantity) (f A1 A2 p s : R) :
  thin_lens small f A1 p -> thin_lens large f A2 p -> A1 < A2 ->
  is_length focus_distance s -> f < s ->
  exists near1 far1 near2 far2 n1 n2,
    GetDepthOfField small focus_distance = ok (near1, far1)
    /\ GetDepthOfField large focus_distance = ok (near2, far2)
    /\ is_length near1 n1 /\ is_length near2 n2 /\ n1 < n2
    /\ (0 < f * f - f / A1 * (225 / 100 * p) * s ->
        exists r1 r2, is_length far1 r1 /\ is_length far2 r2 /\ r2 < r1).
Proof.
  intros [Hcfa1 Hf1 HA1 Hp1 f_pos A1_pos p_pos] [Hcfa2 Hf2 HA2 Hp2 _ A2_pos _]
         HA Hs Hlt.
  destruct (depth_of_field_shape small f A1 p Hcfa1 Hf1 HA1 Hp1 f_pos A1_pos p_pos
              focus_distance s Hs Hlt) as [near1 [far1 [Heq1 [Hnear1 [Hfin1 _]]]]].
  destruct (depth_of_field_shape large f A2 p Hcfa2 Hf2 HA2 Hp2 f_pos A2_pos p_pos
              focus_distance s Hs Hlt) as [near2 [far2 [Heq2 [Hnear2 [Hfin2 _]]]]].
  pose proof (Nc_pos f A2 p f_pos A2_pos p_pos) as Hk2.
  assert (Hs_pos : 0 < s) by lra.
  assert (Hcoc : 0 < 225 / 100 * p) by lra.
  assert (HN : f / A2 < f / A1).
  { unfold Rdiv. apply Rmult_lt_compat_l; [exact f_pos |].
    apply Rinv_lt_contravar; [apply Rmult_lt_0_compat; assumption | exact HA]. }
  assert (Hk : f / A2 * (225 / 100 * p) * s < f / A1 * (225 / 100 * p) * s).
  { apply Rmult_lt_compat_r; [exact Hs_pos |].
    apply Rmult_lt_compat_r; [exact Hcoc | exact HN]. }
  assert (Hk2s : 0 < f / A2 * (225 / 100 * p) * s)
    by (apply Rmult_lt_0_compat; assumption).
  set (k1 := f / A1 * (225 / 100 * p) * s) in *.
  set (k2 := f / A2 * (225 / 100 * p) * s) in *.
  assert (Hff : 0 < f * f) by (apply Rmult_lt_0_compat; assumption).
  assert (Hnum : 0 < s * (f * f)) by (apply Rmult_lt_0_compat; assumption).
  exists near1, far1, near2, far2, (s * (f * f) / (f * f + k1)), (s * (f * f) / (f * f + k2)).
  split; [exact Heq1 |]. split; [exact Heq2 |].
  split; [exact Hnear1 |]. split; [exact Hnear2 |]. split.
  - unfold Rdiv. apply Rmult_lt_compat_l; [exact Hnum |].
    apply Rinv_lt_contravar; [apply Rmult_lt_0_compat; lra | lra].
  - intros Hsd.
    exists (s * (f * f) / (f * f - k1)), (s * (f * f) / (f * f - k2)).
    split; [exact (Hfin1 Hsd) |]. split; [apply Hfin2; lra |].
    unfold Rdiv. apply Rmult_lt_compat_l; [exact Hnum |].
    apply Rinv_lt_contravar; [apply Rmult_lt_0_compat; lra | lra].
Qed.

(** The camera of the tests stopped down to f/4. *)
Lemma stopped_down_thin_lens :
  thin_lens (mkCamera "c" test_sensor
               (mkLens "l" test_focal_length (pq.div test_focal_length (pq.of_float 4))
                       "rectilinear"))
            (/ 100) (/ 400) (/ 200000).
Proof.
  pose proof (test_camera_thin_lens "rectilinear") as [Hcfa Hf _ Hp _ _ _].
  constructor; try lra; try assumption.
  replace (/ 400) with (/ 100 / 4) by lra.
  apply (measures_div _ _ 1 0);
    [apply test_focal_length_is | apply measures_of_float | lra].
Qed.

Lemma GetDepthOfField_aperture_witness :
  exists near1 far1 near2 far2 n1 n2,
    GetDepthOfField
      (mkCamera "c" test_sensor
         (mkLens "l" test_focal_length (pq.div test_focal_length (pq.of_float 4))
                 "rectilinear"))
      (meters 1) = ok (near1, far1)
    /\ GetDepthOfField (test_camera "rectilinear") (meters 1) = ok (near2, far2)
    /\ is_length near1 n1 /\ is_length near2 n2 /\ n1 < n2.
Proof.
  destruct (GetDepthOfField_aperture _ (test_camera "rectilinear") (meters 1)
              (/ 100) (/ 400) (/ 200) (/ 200000) 1
              stopped_down_thin_lens (test_camera_thin_lens "rectilinear"))
    as [near1 [far1 [near2 [far2 [n1 [n2 [H1 [H2 [H3 [H4 [H5 _]]]]]]]]]]].
  - lra.
  - apply is_length_meters.
  - lra.
  - exists near1, far1, near2, far2, n1, n2. repeat (split; [assumption |]). assumption.
Defined.

(** X9.  The hyperfocal distance lies beyond the focal length, and opening
    the aperture pushes it out: of two cameras with the same focal length and
    pixel pitch, the one with the larger aperture diameter has the larger
    hyperfocal distance. *)
Theorem GetHyperfocalDistance_aperture (small large : Camera) (f A1 A2 p : R) :
  thin_lens small f A1 p -> thin_lens large f A2 p -> A1 < A2 ->
  exists H1 H2 h1 h2,
    GetHyperfocalDistance small = ok H1 /\ GetHyperfocalDistance large = ok H2
    /\ is_length H1 h1 /\ is_length H2 h2
    /\ f < h1 /\ h1 < h2.
Proof.
  intros [Hcfa1 Hf1 HA1 Hp1 f_pos A1_pos p_pos] [Hcfa2 Hf2 HA2 Hp2 _ A2_pos _] HA.
  destruct (hyperfocal_shape small f A1 p Hcfa1 Hf1 HA1 Hp1 f_pos A1_pos p_pos)
    as [H1 [Heq1 [HH1 _]]].
  destruct (hyperfocal_shape large f A2 p Hcfa2 Hf2 HA2 Hp2 f_pos A2_pos p_pos)
    as [H2 [Heq2 [HH2 _]]].
  pose proof (Nc_pos f A1 p f_pos A1_pos p_pos) as Hk1.
  pose proof (Nc_pos f A2 p f_pos A2_pos p_pos) as Hk2.
  assert (Hff : 0 < f * f) by (apply Rmult_lt_0_compat; assumption).
  assert (HN : f / A2 < f / A1).
  { unfold Rdiv. apply Rmult_lt_compat_l; [exact f_pos |].
    apply Rinv_lt_contravar; [apply Rmult_lt_0_compat; assumption | exact HA]. }
  assert (Hk : f / A2 * (225 / 100 * p) < f / A1 * (225 / 100 * p)).
  { apply Rmult_lt_compat_r; [lra | exact HN]. }
  do 4 eexists. split; [exact Heq1 |]. split; [exact Heq2 |].
  split; [exact HH1 |]. split; [exact HH2 |].
  set (k1 := f / A1 * (225 / 100 * p)) in *.
  set (k2 := f / A2 * (225 / 100 * p)) in *.
  split.
  - assert (0 < f * f / k1) by (apply Rdiv_lt_0_compat; assumption). lra.
  - assert (f * f / k1 < f * f / k2).
    { unfold Rdiv. apply Rmult_lt_compat_l; [exact Hff |].
      apply Rinv_lt_contravar; [apply Rmult_lt_0_compat; assumption | exact Hk]. }
    lra.
Qed.

Lemma GetHyperfocalDistance_aperture_witness :
  exists H1 H2 h1 h2,
    GetHyperfocalDistance
      (mkCamera "c" test_sensor
         (mkLens "l" test_focal_length (pq.div test_focal_length (pq.of_float 4))
                 "rectilinear")) = ok H1
    /\ GetHyperfocalDistance (test_camera "rectilinear") = ok H2
    /\ is_length H1 h1 /\ is_length H2 h2
    /\ / 100 < h1 /\ h1 < h2.
Proof.
  apply (GetHyperfocalDistance_aperture _ (test_camera "rectilinear")
           (/ 100) (/ 400) (/ 200) (/ 200000)).
  - apply stopped_down_thin_lens.
  - apply test_camera_thin_lens.
  - lra.
Defined.

(** ** Focus at infinity and a vanishing circle of confusion *)

Section Degenerate.

(** Rescaling keeps an infinite magnitude. *)
Lemma rescale_infinite (q u : pq.Quantity) :
  pq.magnitude q = PInf ->
  pq.length_exponent (pq.dimensionality q) = pq.length_exponent (pq.dimensionality u) ->
  exists q', pq.rescale q u = ok q' /\ pq.magnitude q' = PInf
             /\ pq.dimensionality q' = pq.dimensionality u.
Proof.
  intros Hm Hk. unfold pq.rescale.
  destruct (pq.dim_eqb _ _) eqn:E.
  - apply dim_eqb_eq in E. exists q. repeat split; assumption.
  - rewrite Hk, Z.eqb_refl. eexists. split; [reflexivity |]. simpl.
    split; [| reflexivity]. rewrite Hm. simpl.
    rewrite Rsign_pos; [reflexivity |].
    apply Rdiv_lt_0_compat; apply si_factor_pos.
Qed.


Lemma add_infinite_r (q1 q2 : pq.Quantity) (k : Z) (x : R) :
  measures q1 k x -> pq.magnitude q2 = PInf ->
  pq.length_exponent (pq.dimensionality q2) = k ->
  exists q, pq.add q1 q2 = ok q /\ pq.magnitude q = PInf
            /\ pq.dimensionality q = pq.dimensionality q1.
Proof.
  intros [Hk [r [Hm _]]] Hinf Hk2. unfold pq.add.
  destruct (rescale_infinite q2 (pq.units q1) Hinf) as [q2' [-> [Hm2 _]]].
  { simpl. lia. }
  simpl. eexists. split; [reflexivity |]. simpl. rewrite Hm, Hm2. split; reflexivity.
Qed.

Lemma sub_infinite_r (q1 q2 : pq.Quantity) (k : Z) (x : R) :
  measures q1 k x -> pq.magnitude q2 = PInf ->
  pq.length_exponent (pq.dimensionality q2) = k ->
  exists q, pq.sub q1 q2 = ok q /\ pq.magnitude q = NInf.
Proof.
  intros [Hk [r [Hm _]]] Hinf Hk2. unfold pq.sub.
  destruct (rescale_infinite q2 (pq.units q1) Hinf) as [q2' [-> [Hm2 _]]].
  { simpl. lia. }
  simpl. eexists. split; [reflexivity |]. simpl. rewrite Hm, Hm2. reflexivity.
Qed.

(** Focused at an infinite distance the assertion passes, the numerator
    and the denominator of the near limit are both infinite, and their
    quotient is [nan]. *)
Lemma depth_of_field_infinite_focus
    (self : Camera) (focus_distance : pq.Quantity) (f A p : R) :
  thin_lens self f A p ->
  pq.magnitude focus_distance = PInf ->
  pq.length_exponent (pq.dimensionality focus_distance) = 1%Z ->
  pq.gt focus_distance (focal_length (lens self)) = ok true
  /\ exists near,
       GetDepthOfField self focus_distance = ok (near, infinite_length)
       /\ pq.magnitude near = NaN
       /\ pq.dimensionality near = pq.dimensionality focus_distance.
Proof.
  intros [Hcfa Hf HA Hp f_pos A_pos p_pos] Hinf Hk.
  assert (Hgt : pq.gt focus_distance (focal_length (lens self)) = ok true).
  { unfold pq.gt.
    destruct (measures_rescale _ (pq.units focus_distance) 1 f Hf Hk)
      as [f' [-> [[_ [r [Hm _]]] _]]].
    simpl. rewrite Hinf, Hm. reflexivity. }
  split; [exact Hgt |].
  destruct (coc_bayer _ p Hcfa Hp) as [coc [Hcoc_eq Hcoc]].
  assert (HN : measures (f_number (lens self)) 0 (f / A)).
  { apply f_number_measures; [assumption | assumption | lra]. }
  pose proof (measures_mul _ _ _ _ _ _ Hf Hf) as Hf2.
  pose proof (measures_mul _ _ _ _ _ _ HN Hcoc) as HNc.
  pose proof (Nc_pos f A p f_pos A_pos p_pos) as HNc_pos.
  assert (HNcs : pq.magnitude
                   (pq.mul (pq.mul (f_number (lens self)) coc) focus_distance) = PInf
                 /\ pq.length_exponent
                      (pq.dimensionality
                         (pq.mul (pq.mul (f_number (lens self)) coc) focus_distance))
                    = (1 + 1)%Z).
  { destruct HNc as [HkNc [r [Hm Hx]]].
    pose proof (si_factor_pos
                  (pq.dimensionality (pq.mul (f_number (lens self)) coc))) as Hs.
    assert (Hr : 0 < r) by nra.
    split.
    - unfold pq.mul at 1. cbn [pq.magnitude]. rewrite Hm, Hinf. cbn [fmul].
      rewrite Rsign_pos by assumption. reflexivity.
    - unfold pq.mul at 1. cbn [pq.dimensionality].
      rewrite length_exponent_mul, HkNc, Hk. reflexivity. }
  destruct HNcs as [HNcs Hk2].
  unfold GetDepthOfField. rewrite Hgt. simpl. rewrite Hcoc_eq. simpl.
  destruct (add_infinite_r _ _ _ _ Hf2 HNcs Hk2) as [den [-> [Hden Hdend]]]. simpl.
  destruct (sub_infinite_r _ _ _ _ Hf2 HNcs Hk2) as [sd [-> Hsd]]. simpl.
  unfold pq.gt_number. rewrite Hsd. simpl.
  eexists. split; [reflexivity |]. split.
  - destruct Hf as [_ [rf [Hmf Hxf]]].
    pose proof (si_factor_pos (pq.dimensionality (focal_length (lens self)))) as Hsf.
    assert (Hrf : 0 < rf) by nra.
    simpl. rewrite Hinf, Hden, Hmf. simpl.
    rewrite Rsign_pos by (apply Rmult_lt_0_compat; assumption). reflexivity.
  - simpl. rewrite Hdend. apply dim_mul_div_cancel.
Qed.

End Degenerate.

(** C10, as stated, fails at an infinite focus distance: [inf * pq.m]
    exceeds the focal length of the camera of the tests, so the assertion
    passes, and the near limit returned is [nan], which is neither finite
    nor below the far limit. *)
Lemma GetDepthOfField_near_not_finite :
  pq.gt infinite_length (focal_length (lens (test_camera "rectilinear"))) = ok true
  /\ exists near far,
       GetDepthOfField (test_camera "rectilinear") infinite_length = ok (near, far)
       /\ pq.magnitude near = NaN
       /\ pq.lt near far = ok false.
Proof.
  destruct (depth_of_field_infinite_focus (test_camera "rectilinear") infinite_length
              (/ 100) (/ 200) (/ 200000) (test_camera_thin_lens "rectilinear"))
    as [Hgt [near [Heq [Hm Hd]]]].
  - rewrite infinite_length_eq. reflexivity.
  - rewrite infinite_length_eq. reflexivity.
  - split; [exact Hgt |]. exists near, infinite_length.
    split; [exact Heq |]. split; [exact Hm |].
    rewrite infinite_length_eq in Hd |- *.
    unfold pq.lt, pq.rescale. simpl in Hd |- *. rewrite Hd. simpl.
    rewrite Hm. reflexivity.
Qed.

(** X10.  Focus at infinity: for a camera with a Bayer sensor and positive
    focal length, aperture diameter and pixel pitch, a focus distance of
    infinite magnitude passes the assertion, and [GetDepthOfField] returns a
    near limit of [nan], in the units of the focus distance, together with
    the far limit [inf * pq.m]. *)
Theorem GetDepthOfField_infinite_focus
    (self : Camera) (focus_distance : pq.Quantity) (f A p : R) :
  thin_lens self f A p ->
  pq.magnitude focus_distance = PInf ->
  pq.length_exponent (pq.dimensionality focus_distance) = 1%Z ->
  pq.gt focus_distance (focal_length (lens self)) = ok true
  /\ exists near,
       GetDepthOfField self focus_distance = ok (near, infinite_length)
       /\ pq.magnitude near = NaN
       /\ pq.dimensionality near = pq.dimensionality focus_distance.
Proof.
  intros Htl Hinf Hk.
  exact (depth_of_field_infinite_focus self focus_distance f A p Htl Hinf Hk).
Qed.

Lemma GetDepthOfField_infinite_focus_witness :
  pq.gt (pq.mul (pq.scalar INF) pq.mm) (focal_length (lens (test_camera "rectilinear")))
  = ok true
  /\ exists near,
       GetDepthOfField (test_camera "rectilinear") (pq.mul (pq.scalar INF) pq.mm)
       = ok (near, infinite_length)
       /\ pq.magnitude near = NaN
       /\ pq.dimensionality near = pq.dimensionality (pq.mul (pq.scalar INF) pq.mm).
Proof.
  assert (Hinf : pq.magnitude (pq.mul (pq.scalar INF) pq.mm) = PInf).
  { unfold pq.mul, INF. simpl. rewrite Rsign_pos by lra. reflexivity. }
  apply (GetDepthOfField_infinite_focus (test_camera "rectilinear")
           (pq.mul (pq.scalar INF) pq.mm) (/ 100) (/ 200) (/ 200000)).
  - apply test_camera_thin_lens.
  - exact Hinf.
  - reflexivity.
Defined.

(** X11.  With a pixel pitch of zero the circle of confusion vanishes and
    nothing raises: at every finite focus distance beyond the focal length
    both limits equal the focus distance, so the depth of field has no
    extent. *)
Theorem zero_pitch_depth_of_field
    (self : Camera) (focus_distance : pq.Quantity) (f A s : R) :
  cfa (sensor self) = "bayer" ->
  is_length (focal_length (lens self)) f -> 0 < f ->
  is_length (aperture_diameter (lens self)) A -> 0 < A ->
  is_length (pixel_pitch (sensor self)) 0 ->
  is_length focus_distance s -> f < s ->
  exists near far,
    GetDepthOfField self focus_distance = ok (near, far)
    /\ is_length near s /\ is_length far s.
Proof.
  intros Hcfa Hf f_pos HA A_pos Hp Hs Hlt.
  destruct (coc_bayer _ 0 Hcfa Hp) as [coc [Hcoc_eq Hcoc]].
  replace (225 / 100 * 0) with 0 in Hcoc by ring.
  assert (HN : measures (f_number (lens self)) 0 (f / A)).
  { apply f_number_measures; [assumption | assumption | lra]. }
  pose proof (measures_mul _ _ _ _ _ _ Hf Hf) as Hf2.
  pose proof (measures_mul _ _ _ _ _ _ HN Hcoc) as HNc.
  replace (f / A * 0) with 0 in HNc by ring.
  assert (Hff : 0 < f * f) by (apply Rmult_lt_0_compat; assumption).
  pose proof (measures_mul _ _ _ _ _ _ HNc Hs) as HNcs.
  replace (0 * s) with 0 in HNcs by ring.
  change (0 + 1 + 1)%Z with (1 + 1)%Z in HNcs.
  pose proof (measures_mul _ _ _ _ _ _ Hs Hf2) as Hsf2.
  unfold GetDepthOfField. rewrite (gt_measures _ _ 1 s f Hs Hf).
  destruct (Rlt_dec f s) as [_ | Hn]; [| contradiction]. simpl.
  rewrite Hcoc_eq. simpl.
  destruct (measures_add _ _ _ _ _ Hf2 HNcs) as [den [-> [Hden _]]]. simpl.
  destruct (measures_sub _ _ _ _ _ Hf2 HNcs) as [sd [-> [Hsd _]]]. simpl.
  rewrite (gt_number_measures _ _ _ Hsd).
  destruct (Rlt_dec 0 (f * f - 0)) as [_ | Hn]; [| lra].
  do 2 eexists. split; [reflexivity |]. split.
  - assert (Hnz : f * f + 0 <> 0) by lra.
    pose proof (measures_div _ _ _ _ _ _ Hsf2 Hden Hnz) as Hnear.
    replace (s * (f * f) / (f * f + 0)) with s in Hnear by (field; lra).
    exact Hnear.
  - assert (Hnz : f * f - 0 <> 0) by lra.
    pose proof (measures_div _ _ _ _ _ _ Hsf2 Hsd Hnz) as Hfar.
    replace (s * (f * f) / (f * f - 0)) with s in Hfar by (field; lra).
    exact Hfar.
Qed.

Lemma zero_pitch_depth_of_field_witness :
  exists near far,
    GetDepthOfField
      (mkCamera "c" (mkSensor "s" (pq.mul (pq.of_float 0) pq.micron) 4000 3000 "bayer")
                (test_lens "rectilinear"))
      (meters 1) = ok (near, far)
    /\ is_length near 1 /\ is_length far 1.
Proof.
  pose proof (test_camera_thin_lens "rectilinear") as [_ Hf HA _ _ _ _].
  apply (zero_pitch_depth_of_field _ (meters 1) (/ 100) (/ 200) 1).
  - reflexivity.
  - exact Hf.
  - lra.
  - exact HA.
  - lra.
  - pose proof (measures_mul _ _ _ _ _ _ (measures_of_float 0) is_length_micron) as H0.
    replace (0 * / 1000000) with 0 in H0 by ring. exact H0.
  - apply is_length_meters.
  - lra.
Defined.

(** ** Angles of view of a camera *)

(** X12.  With an equidistant lens the horizontal and the vertical angle of
    view are the instantaneous angle of view of one pixel times the number of
    pixels across and down. *)
Theorem GetAnglesOfView_equidistant_pixels (self : Camera) (f p : R) :
  projection (lens self) = "equidistant" ->
  is_length (focal_length (lens self)) f -> 0 < f ->
  is_length (pixel_pitch (sensor self)) p ->
  exists horizontal vertical ifov a,
    GetAnglesOfView self = ok (horizontal, vertical)
    /\ GetInstantaneousAngleOfView self = ok ifov
    /\ pq.magnitude ifov = Fin a
    /\ pq.magnitude horizontal = Fin (IZR (width_pixels (sensor self)) * a)
    /\ pq.magnitude vertical = Fin (IZR (height_pixels (sensor self)) * a)
    /\ pq.dimensionality horizontal = pq.dimensionality pq.radian
    /\ pq.dimensionality vertical = pq.dimensionality pq.radian
    /\ pq.dimensionality ifov = pq.dimensionality pq.radian.
Proof.
  intros Hproj Hf Hpos Hp.
  destruct (equidistant_shape (lens self) _ f _ Hproj Hf Hpos Hp) as [i [Hi [Hid Him]]].
  destruct (equidistant_shape (lens self) _ f _ Hproj Hf Hpos
              (sensor_width_is (sensor self) p Hp)) as [w [Hw [Hwd Hwm]]].
  destruct (equidistant_shape (lens self) _ f _ Hproj Hf Hpos
              (sensor_height_is (sensor self) p Hp)) as [h [Hh [Hhd Hhm]]].
  exists w, h, i, (p / f). unfold GetAnglesOfView, GetInstantaneousAngleOfView.
  rewrite Hw, Hh. simpl.
  split; [reflexivity |]. split; [exact Hi |]. split; [exact Him |].
  split; [rewrite Hwm; f_equal; field; lra |].
  split; [rewrite Hhm; f_equal; field; lra |].
  repeat (split; [assumption |]). assumption.
Qed.

Lemma GetAnglesOfView_equidistant_pixels_witness :
  exists horizontal vertical ifov a,
    GetAnglesOfView (test_camera "equidistant") = ok (horizontal, vertical)
    /\ GetInstantaneousAngleOfView (test_camera "equidistant") = ok ifov
    /\ pq.magnitude ifov = Fin a
    /\ pq.magnitude horizontal = Fin (4000 * a)
    /\ pq.magnitude vertical = Fin (3000 * a).
Proof.
  pose proof (test_camera_thin_lens "equidistant") as [_ Hf _ Hp _ _ _].
  destruct (GetAnglesOfView_equidistant_pixels (test_camera "equidistant")
              (/ 100) (/ 200000) eq_refl Hf) as [w [h [i [a [H1 [H2 [H3 [H4 [H5 _]]]]]]]]];
    [lra | exact Hp |].
  exists w, h, i, a. repeat (split; [assumption |]). assumption.
Defined.

(** X13.  With an equidistant lens the diagonal angle of view, the [hypot]
    of the horizontal and the vertical angle, is the angle of view of the
    sensor diagonal. *)
Theorem GetDiagonalAngleOfView_equidistant (self : Camera) (f p : R) :
  projection (lens self) = "equidistant" ->
  is_length (focal_length (lens self)) f -> 0 < f ->
  is_length (pixel_pitch (sensor self)) p ->
  exists diagonal angle,
    sensor_diagonal (sensor self) = ok diagonal
    /\ _GetAngleOfView (lens self) diagonal = ok angle
    /\ GetDiagonalAngleOfView self = ok angle.
Proof.
  intros Hproj Hf Hpos Hp.
  destruct (sensor_diagonal_is (sensor self) p Hp) as [diagonal [Hdiag Hd]].
  destruct (equidistant_shape (lens self) _ f _ Hproj Hf Hpos Hd) as [a [Ha [Had Ham]]].
  destruct (equidistant_shape (lens self) _ f _ Hproj Hf Hpos
              (sensor_width_is (sensor self) p Hp)) as [w [Hw [Hwd Hwm]]].
  destruct (equidistant_shape (lens self) _ f _ Hproj Hf Hpos
              (sensor_height_is (sensor self) p Hp)) as [h [Hh [Hhd Hhm]]].
  exists diagonal, a. split; [exact Hdiag |]. split; [exact Ha |].
  unfold GetDiagonalAngleOfView, GetAnglesOfView. rewrite Hw, Hh. simpl.
  unfold pq.hypot. rewrite Hwd, Hhd, dim_eqb_refl, Hwm, Hhm. simpl.
  destruct a as [mag dims]. simpl in Had, Ham. rewrite Had, Ham.
  unfold ok. do 3 f_equal.
  set (x := p * IZR (width_pixels (sensor self))).
  set (y := p * IZR (height_pixels (sensor self))).
  replace (x / f * (x / f) + y / f * (y / f))
    with ((y * y + x * x) * (/ f * / f)) by (field; lra).
  rewrite sqrt_mult_alt.
  - rewrite sqrt_square by (left; apply Rinv_0_lt_compat; exact Hpos). reflexivity.
  - pose proof (Rle_0_sqr x). pose proof (Rle_0_sqr y). unfold Rsqr in *. lra.
Qed.

Lemma GetDiagonalAngleOfView_equidistant_witness :
  exists diagonal angle,
    sensor_diagonal test_sensor = ok diagonal
    /\ _GetAngleOfView (test_lens "equidistant") diagonal = ok angle
    /\ GetDiagonalAngleOfView (test_camera "equidistant") = ok angle.
Proof.
  pose proof (test_camera_thin_lens "equidistant") as [_ Hf _ Hp _ _ _].
  apply (GetDiagonalAngleOfView_equidistant (test_camera "equidistant")
           (/ 100) (/ 200000) eq_refl Hf); [lra | exact Hp].
Defined.

Section AngleOrder.

(** With either supported projection the angle of view is a strictly
    increasing function of the focal-plane length that vanishes at zero. *)
Lemma angle_of_view_increasing (l : Lens) (f : R) :
  projection l = "rectilinear" \/ projection l = "equidistant" ->
  is_length (focal_length l) f -> 0 < f ->
  exists g : R -> R,
    g 0 = 0
    /\ (forall x y, x < y -> g x < g y)
    /\ forall L x, is_length L x ->
         exists q, _GetAngleOfView l L = ok q /\ pq.magnitude q = Fin (g x).
Proof.
  intros [Hproj | Hproj] Hf Hpos.
  - exists (fun x => 2 * atan (x / (2 * f))). split; [| split].
    + unfold Rdiv. rewrite Rmult_0_l, atan_0. ring.
    + intros x y Hxy.
      assert (x / (2 * f) < y / (2 * f)).
      { unfold Rdiv. apply Rmult_lt_compat_r; [apply Rinv_0_lt_compat; lra | exact Hxy]. }
      pose proof (atan_increasing _ _ H). lra.
    + intros L x HL.
      destruct (rectilinear_shape l L f x Hproj Hf Hpos HL)
        as [q [f' [r [rf [Heq [_ [_ [_ [_ [Hm Ha]]]]]]]]]].
      exists q. split; [exact Heq |]. rewrite Hm, Ha. reflexivity.
  - exists (fun x => x / f). split; [| split].
    + unfold Rdiv. ring.
    + intros x y Hxy. unfold Rdiv.
      apply Rmult_lt_compat_r; [apply Rinv_0_lt_compat; lra | exact Hxy].
    + intros L x HL.
      destruct (equidistant_shape l L f x Hproj Hf Hpos HL) as [q [Heq [_ Hm]]].
      exists q. split; assumption.
Qed.

End AngleOrder.

(** X14.  With either supported projection the two angles of view are
    ordered like the pixel counts: a sensor with more pixels across than down
    has the larger horizontal angle, one with more pixels down than across the
    larger vertical angle, a square one equal angles. *)
Theorem GetAnglesOfView_order (self : Camera) (f p : R) :
  projection (lens self) = "rectilinear" \/ projection (lens self) = "equidistant" ->
  is_length (focal_length (lens self)) f -> 0 < f ->
  is_length (pixel_pitch (sensor self)) p -> 0 < p ->
  exists horizontal vertical a b,
    GetAnglesOfView self = ok (horizontal, vertical)
    /\ pq.magnitude horizontal = Fin a /\ pq.magnitude vertical = Fin b
    /\ ((height_pixels (sensor self) < width_pixels (sensor self))%Z -> b < a)
    /\ ((width_pixels (sensor self) < height_pixels (sensor self))%Z -> a < b)
    /\ (width_pixels (sensor self) = height_pixels (sensor self) -> a = b).
Proof.
  intros Hproj Hf Hpos Hp p_pos.
  destruct (angle_of_view_increasing (lens self) f Hproj Hf Hpos) as [g [_ [Hg Hview]]].
  destruct (Hview _ _ (sensor_width_is (sensor self) p Hp)) as [w [Hw Hwm]].
  destruct (Hview _ _ (sensor_height_is (sensor self) p Hp)) as [h [Hh Hhm]].
  exists w, h, (g (p * IZR (width_pixels (sensor self)))),
    (g (p * IZR (height_pixels (sensor self)))).
  unfold GetAnglesOfView. rewrite Hw, Hh. simpl.
  split; [reflexivity |]. split; [exact Hwm |]. split; [exact Hhm |].
  split; [| split].
  - intros Hlt. apply Hg. apply Rmult_lt_compat_l; [exact p_pos | apply IZR_lt; exact Hlt].
  - intros Hlt. apply Hg. apply Rmult_lt_compat_l; [exact p_pos | apply IZR_lt; exact Hlt].
  - intros ->. reflexivity.
Qed.

Lemma GetAnglesOfView_order_witness :
  exists horizontal vertical a b,
    GetAnglesOfView (test_camera "rectilinear") = ok (horizontal, vertical)
    /\ pq.magnitude horizontal = Fin a /\ pq.magnitude vertical = Fin b
    /\ b < a.
Proof.
  pose proof (test_camera_thin_lens "rectilinear") as [_ Hf _ Hp _ _ _].
  destruct (GetAnglesOfView_order (test_camera "rectilinear") (/ 100) (/ 200000)
              (or_introl eq_refl) Hf) as [w [h [a [b [H1 [H2 [H3 [H4 _]]]]]]]];
    [lra | exact Hp | lra |].
  exists w, h, a, b. repeat (split; [assumption |]). apply H4. reflexivity.
Defined.

(** X15.  For the same focal length and the same positive focal-plane
    length, the rectilinear projection gives a strictly smaller angle of view
    than the equidistant one. *)
Theorem rectilinear_below_equidistant
    (rectilinear equidistant : Lens) (L : pq.Quantity) (f x : R) :
  projection rectilinear = "rectilinear" -> projection equidistant = "equidistant" ->
  is_length (focal_length rectilinear) f -> is_length (focal_length equidistant) f ->
  0 < f -> is_length L x -> 0 < x ->
  exists q1 q2 a1 a2,
    _GetAngleOfView rectilinear L = ok q1 /\ pq.magnitude q1 = Fin a1
    /\ _GetAngleOfView equidistant L = ok q2 /\ pq.magnitude q2 = Fin a2
    /\ a1 < a2.
Proof.
  intros Hp1 Hp2 Hf1 Hf2 Hpos HL Hx.
  destruct (rectilinear_shape rectilinear L f x Hp1 Hf1 Hpos HL)
    as [q1 [f' [r [rf [Heq1 [_ [_ [_ [_ [Hm1 Ha]]]]]]]]]].
  destruct (equidistant_shape equidistant L f x Hp2 Hf2 Hpos HL) as [q2 [Heq2 [_ Hm2]]].
  exists q1, q2, (2 * atan (x / (2 * f))), (x / f).
  split; [exact Heq1 |]. split; [rewrite Hm1, Ha; reflexivity |].
  split; [exact Heq2 |]. split; [exact Hm2 |].
  assert (Hy : 0 < x / (2 * f)) by (apply Rdiv_lt_0_compat; lra).
  pose proof (atan_lt_id _ Hy) as Hlt.
  replace (x / f) with (2 * (x / (2 * f))) by (field; lra). lra.
Qed.

Lemma rectilinear_below_equidistant_witness :
  exists q1 q2 a1 a2,
    _GetAngleOfView (test_lens "rectilinear") (sensor_width test_sensor) = ok q1
    /\ pq.magnitude q1 = Fin a1
    /\ _GetAngleOfView (test_lens "equidistant") (sensor_width test_sensor) = ok q2
    /\ pq.magnitude q2 = Fin a2
    /\ a1 < a2.
Proof.
  pose proof (test_camera_thin_lens "rectilinear") as [_ Hf _ Hp _ _ _].
  apply (rectilinear_below_equidistant (test_lens "rectilinear") (test_lens "equidistant")
           (sensor_width test_sensor) (/ 100) (/ 200000 * IZR (width_pixels test_sensor))
           eq_refl eq_refl Hf Hf).
  - lra.
  - apply (sensor_width_is test_sensor). exact Hp.
  - simpl. lra.
Defined.

(** ** More on equivalent focal lengths *)

(** X16.  The crop factor at work: a sensor whose diagonal is 43.27 mm gets
    its own focal length back as 35 mm equivalent, a smaller sensor a longer
    equivalent focal length, a larger sensor a shorter one. *)
Theorem Get35mmEquivalentFocalLength_crop
    (self : Camera) (diagonal : pq.Quantity) (d f : R) :
  sensor_diagonal (sensor self) = ok diagonal -> is_length diagonal d -> 0 < d ->
  is_length (focal_length (lens self)) f -> 0 < f ->
  exists q e,
    Get35mmEquivalentFocalLength self = ok q /\ is_length q e
    /\ (d = 4327 / 100000 -> e = f)
    /\ (d < 4327 / 100000 -> f < e)
    /\ (4327 / 100000 < d -> e < f).
Proof.
  intros Hdiag Hd d_pos Hf f_pos.
  destruct (equivalent_focal_length_shape self diagonal d f Hdiag Hd d_pos Hf)
    as [q [Heq [_ Hq]]].
  exists q, (4327 / 100 * / 1000 / d * f).
  split; [exact Heq |]. split; [exact Hq |].
  assert (Hcrop : 4327 / 100 * / 1000 / d * d = 4327 / 100000).
  { rewrite div_mul_cancel by lra. lra. }
  set (crop := 4327 / 100 * / 1000 / d) in *.
  assert (Hcrop_pos : 0 < crop).
  { unfold crop. apply Rdiv_lt_0_compat; lra. }
  split; [| split].
  - intros Hfull. assert (crop = 1) by nra. nra.
  - intros Hsmall. assert (1 < crop) by nra. nra.
  - intros Hlarge. assert (crop < 1) by nra. nra.
Qed.

Lemma Get35mmEquivalentFocalLength_crop_witness :
  exists q e,
    Get35mmEquivalentFocalLength (test_camera "rectilinear") = ok q
    /\ is_length q e /\ / 100 < e.
Proof.
  pose proof (test_camera_thin_lens "rectilinear") as [_ Hf _ Hp _ _ _].
  destruct (sensor_diagonal_is test_sensor _ Hp) as [diagonal [Hdiag Hd]].
  assert (Hd40 : sqrt (/ 200000 * IZR (height_pixels test_sensor)
                       * (/ 200000 * IZR (height_pixels test_sensor))
                       + / 200000 * IZR (width_pixels test_sensor)
                         * (/ 200000 * IZR (width_pixels test_sensor))) = / 40).
  { apply sqrt_of_square; [lra |]. simpl. lra. }
  rewrite Hd40 in Hd.
  destruct (Get35mmEquivalentFocalLength_crop (test_camera "rectilinear") diagonal
              (/ 40) (/ 100) Hdiag Hd) as [q [e [Heq [Hq [_ [Hsmall _]]]]]];
    [lra | exact Hf | lra |].
  exists q, e. split; [exact Heq |]. split; [exact Hq |]. apply Hsmall. lra.
Defined.

(** X17.  [GetAPSCEquivalentFocalLength] returns the 35 mm equivalent
    divided by 1.5, still in millimetres, whenever the latter is computed. *)
Theorem GetAPSCEquivalentFocalLength_ratio (self : Camera) (p f : R) :
  is_length (pixel_pitch (sensor self)) p ->
  is_length (focal_length (lens self)) f ->
  0 < p -> 0 < f ->
  (0 < width_pixels (sensor self))%Z -> (0 < height_pixels (sensor self))%Z ->
  exists full apsc e,
    Get35mmEquivalentFocalLength self = ok full
    /\ GetAPSCEquivalentFocalLength self = ok apsc
    /\ is_length full e /\ is_length apsc (e / (15 / 10))
    /\ 0 < e
    /\ pq.dimensionality apsc = pq.dimensionality pq.mm.
Proof.
  intros Hp Hf p_pos f_pos Hw Hh.
  destruct (sensor_diagonal_is (sensor self) p Hp) as [diagonal [Hdiag Hd]].
  apply IZR_lt in Hw, Hh.
  pose proof (diagonal_pos p _ _ p_pos Hh Hw) as Hd_pos.
  set (d := sqrt _) in *.
  destruct (equivalent_focal_length_shape self diagonal d f Hdiag Hd Hd_pos Hf)
    as [q [Heq [Hdim Hq]]].
  exists q, (pq.div q (pq.of_float (15 / 10))), (4327 / 100 * / 1000 / d * f).
  split; [exact Heq |]. split.
  { unfold GetAPSCEquivalentFocalLength. rewrite Heq. reflexivity. }
  split; [exact Hq |]. split.
  { apply (measures_div _ _ 1 0); [exact Hq | apply measures_of_float | lra]. }
  split.
  { apply Rmult_lt_0_compat; [| exact f_pos]. apply Rdiv_lt_0_compat; lra. }
  simpl. rewrite dim_div_dimensionless_r. exact Hdim.
Qed.

Lemma GetAPSCEquivalentFocalLength_ratio_witness :
  exists full apsc e,
    Get35mmEquivalentFocalLength (test_camera "rectilinear") = ok full
    /\ GetAPSCEquivalentFocalLength (test_camera "rectilinear") = ok apsc
    /\ is_length full e /\ is_length apsc (e / (15 / 10)).
Proof.
  pose proof (test_camera_thin_lens "rectilinear") as [_ Hf _ Hp _ _ _].
  destruct (GetAPSCEquivalentFocalLength_ratio (test_camera "rectilinear")
              (/ 200000) (/ 100) Hp Hf)
    as [full [apsc [e [H1 [H2 [H3 [H4 _]]]]]]];
    [lra | lra | reflexivity | reflexivity |].
  exists full, apsc, e. repeat (split; [assumption |]). assumption.
Defined.

Section Symmetry.

Lemma fhypot_comm (x y : pyfloat) : fhypot x y = fhypot y x.
Proof.
  destruct x, y; simpl; try reflexivity. f_equal. f_equal. ring.
Qed.

Lemma hypot_comm (q1 q2 : pq.Quantity) : pq.hypot q1 q2 = pq.hypot q2 q1.
Proof.
  unfold pq.hypot.
  destruct (pq.dim_eqb (pq.dimensionality q1) (pq.dimensionality q2)) eqn:E.
  - apply dim_eqb_eq in E. rewrite E, dim_eqb_refl, fhypot_comm. reflexivity.
  - destruct (pq.dim_eqb (pq.dimensionality q2) (pq.dimensionality q1)) eqn:E';
      [| reflexivity].
    apply dim_eqb_eq in E'. rewrite E', dim_eqb_refl in E. discriminate.
Qed.

End Symmetry.

(** X18.  Turning the sensor by a quarter turn changes neither its diagonal
    nor the equivalent focal lengths: swapping [width_pixels] and
    [height_pixels] leaves the three results as they are. *)
Theorem sensor_orientation_irrelevant
    (name sensor_name : string) (pixel_pitch : pq.Quantity) (w h : Z) (cfa : string)
    (lens : Lens) :
  let landscape := mkSensor sensor_name pixel_pitch w h cfa in
  let portrait := mkSensor sensor_name pixel_pitch h w cfa in
  sensor_diagonal landscape = sensor_diagonal portrait
  /\ Get35mmEquivalentFocalLength (mkCamera name landscape lens)
     = Get35mmEquivalentFocalLength (mkCamera name portrait lens)
  /\ GetAPSCEquivalentFocalLength (mkCamera name landscape lens)
     = GetAPSCEquivalentFocalLength (mkCamera name portrait lens).
Proof.
  intros landscape portrait.
  assert (Hdiag : sensor_diagonal landscape = sensor_diagonal portrait).
  { unfold sensor_diagonal. rewrite hypot_comm. reflexivity. }
  assert (H35 : Get35mmEquivalentFocalLength (mkCamera name landscape lens)
                = Get35mmEquivalentFocalLength (mkCamera name portrait lens)).
  { unfold Get35mmEquivalentFocalLength. cbn [sensor]. rewrite Hdiag. reflexivity. }
  split; [exact Hdiag |]. split; [exact H35 |].
  unfold GetAPSCEquivalentFocalLength. rewrite H35. reflexivity.
Qed.

(** ** How errors travel *)

(** X19.  A sensor whose [cfa] is not ['bayer'] makes
    [GetHyperfocalDistance] fail with the [NameError] of the missing [Error]
    class, and [GetDepthOfField] too once the assertion on the focus distance
    has passed. *)
Theorem unknown_cfa_propagates
    (self : Camera) (focus_distance : pq.Quantity) (f s : R) :
  cfa (sensor self) <> "bayer" ->
  GetHyperfocalDistance self = raise (NameError "Error")
  /\ (is_length (focal_length (lens self)) f -> is_length focus_distance s -> f < s ->
      GetDepthOfField self focus_distance = raise (NameError "Error")).
Proof.
  intros Hcfa. apply String.eqb_neq in Hcfa.
  assert (Hcoc : circle_of_confusion_diameter (sensor self) = raise (NameError "Error")).
  { unfold circle_of_confusion_diameter. rewrite Hcfa. reflexivity. }
  split.
  - unfold GetHyperfocalDistance. rewrite Hcoc. reflexivity.
  - intros Hf Hs Hlt. unfold GetDepthOfField.
    rewrite (gt_measures _ _ 1 s f Hs Hf).
    destruct (Rlt_dec f s) as [_ | Hn]; [| contradiction]. simpl.
    rewrite Hcoc. reflexivity.
Qed.

Lemma unknown_cfa_propagates_witness :
  GetHyperfocalDistance
    (mkCamera "c" (mkSensor "s" (pq.mul (pq.of_float 5) pq.micron) 4000 3000 "foveon")
              (test_lens "rectilinear"))
  = raise (NameError "Error")
  /\ GetDepthOfField
       (mkCamera "c" (mkSensor "s" (pq.mul (pq.of_float 5) pq.micron) 4000 3000 "foveon")
                 (test_lens "rectilinear"))
       (meters 1)
     = raise (NameError "Error").
Proof.
  destruct (unknown_cfa_propagates
              (mkCamera "c"
                 (mkSensor "s" (pq.mul (pq.of_float 5) pq.micron) 4000 3000 "foveon")
                 (test_lens "rectilinear"))
              (meters 1) (/ 100) 1) as [Hhyper Hdof].
  - simpl. discriminate.
  - split; [exact Hhyper |].
    apply Hdof; [apply test_focal_length_is | apply is_length_meters | lra].
Defined.

(** X20.  A lens whose projection is neither ['rectilinear'] nor
    ['equidistant'] makes all four angle-based queries fail with that same
    [NameError], whatever the sensor and the distance. *)
Theorem unknown_projection_propagates (self : Camera) (distance : pq.Quantity) :
  projection (lens self) <> "rectilinear" ->
  projection (lens self) <> "equidistant" ->
  GetAnglesOfView self = raise (NameError "Error")
  /\ GetDiagonalAngleOfView self = raise (NameError "Error")
  /\ GetInstantaneousAngleOfView self = raise (NameError "Error")
  /\ GetGroundSampleDistance self distance = raise (NameError "Error").
Proof.
  intros Hrect Hequi.
  assert (Hview : forall L, _GetAngleOfView (lens self) L = raise (NameError "Error")).
  { intros L. apply String.eqb_neq in Hrect, Hequi.
    unfold _GetAngleOfView. rewrite Hrect, Hequi. reflexivity. }
  assert (Hangles : GetAnglesOfView self = raise (NameError "Error")).
  { unfold GetAnglesOfView. rewrite Hview. reflexivity. }
  assert (Hifov : GetInstantaneousAngleOfView self = raise (NameError "Error")).
  { unfold GetInstantaneousAngleOfView. apply Hview. }
  split; [exact Hangles |]. split; [| split; [exact Hifov |]].
  - unfold GetDiagonalAngleOfView. rewrite Hangles. reflexivity.
  - unfold GetGroundSampleDistance. rewrite Hifov. reflexivity.
Qed.

Lemma unknown_projection_propagates_witness :
  GetAnglesOfView (test_camera "stereographic") = raise (NameError "Error")
  /\ GetDiagonalAngleOfView (test_camera "stereographic") = raise (NameError "Error")
  /\ GetInstantaneousAngleOfView (test_camera "stereographic") = raise (NameError "Error")
  /\ GetGroundSampleDistance (test_camera "stereographic") (meters 1)
     = raise (NameError "Error").
Proof.
  apply (unknown_projection_propagates (test_camera "stereographic") (meters 1));
    simpl; discriminate.
Defined.

(** ** Operands of the wrong dimension *)

Section Mismatch.

(** Rescaling between units of different SI dimensionality fails. *)
Lemma rescale_mismatch (q u : pq.Quantity) :
  pq.length_exponent (pq.dimensionality q)
  <> pq.length_exponent (pq.dimensionality u) ->
  pq.rescale q u = raise ValueError.
Proof.
  intros Hne. unfold pq.rescale.
  destruct (pq.dim_eqb _ _) eqn:E.
  - apply dim_eqb_eq in E. rewrite E in Hne. contradiction.
  - apply Z.eqb_neq in Hne. rewrite Hne. reflexivity.
Qed.

End Mismatch.

(** X21.  Handed a focal-plane "length" whose dimension differs from that of
    the focal length, the rectilinear branch raises [ValueError], while the
    equidistant branch raises nothing and returns a quantity labelled in
    radians that still carries the left-over power of a length. *)
Theorem angle_of_view_dimension_check (l : Lens) (L : pq.Quantity) :
  pq.length_exponent (pq.dimensionality L)
  <> pq.length_exponent (pq.dimensionality (focal_length l)) ->
  (projection l = "rectilinear" -> _GetAngleOfView l L = raise ValueError)
  /\ (projection l = "equidistant" ->
      exists q,
        _GetAngleOfView l L = ok q
        /\ pq.exp_rad (pq.dimensionality q) = 1%Z
        /\ pq.length_exponent (pq.dimensionality q)
           = (pq.length_exponent (pq.dimensionality L)
              - pq.length_exponent (pq.dimensionality (focal_length l)))%Z
        /\ pq.length_exponent (pq.dimensionality q) <> 0%Z).
Proof.
  intros Hne. split.
  - intros Hproj. unfold _GetAngleOfView. rewrite Hproj. simpl.
    rewrite rescale_mismatch; [reflexivity |].
    simpl. intros Heq. apply Hne. symmetry. exact Heq.
  - intros Hproj. unfold _GetAngleOfView. rewrite Hproj. simpl.
    eexists. split; [reflexivity |].
    assert (Hk : pq.length_exponent
                   (pq.dimensionality
                      (pq.mul (pq.simplified (pq.div L (focal_length l))) pq.radian))
                 = (pq.length_exponent (pq.dimensionality L)
                    - pq.length_exponent (pq.dimensionality (focal_length l)))%Z).
    { simpl. rewrite length_exponent_mul. unfold pq.simplified_dim.
      rewrite length_exponent_div.
      set (a := pq.length_exponent (pq.dimensionality L)).
      set (b := pq.length_exponent (pq.dimensionality (focal_length l))).
      unfold pq.length_exponent. simpl. lia. }
    split; [reflexivity |]. split; [exact Hk |]. rewrite Hk. lia.
Qed.

Lemma angle_of_view_dimension_check_witness :
  _GetAngleOfView (test_lens "rectilinear") (pq.of_float 20) = raise ValueError
  /\ exists q,
       _GetAngleOfView (test_lens "equidistant") (pq.of_float 20) = ok q
       /\ pq.length_exponent (pq.dimensionality q) = (-1)%Z.
Proof.
  split.
  - apply (angle_of_view_dimension_check (test_lens "rectilinear") (pq.of_float 20));
      [simpl; discriminate | reflexivity].
  - destruct (angle_of_view_dimension_check (test_lens "equidistant") (pq.of_float 20))
      as [_ Hequi]; [simpl; discriminate |].
    destruct (Hequi eq_refl) as [q [Heq [_ [Hk _]]]].
    exists q. split; [exact Heq |]. rewrite Hk. reflexivity.
Defined.

(** X22.  Handed a focus distance whose dimension differs from that of the
    focal length, [GetDepthOfField] raises [ValueError] from the comparison
    in its assertion, before the assertion can fail and whatever the
    sensor. *)
Theorem GetDepthOfField_dimension_check (self : Camera) (focus_distance : pq.Quantity) :
  pq.length_exponent (pq.dimensionality focus_distance)
  <> pq.length_exponent (pq.dimensionality (focal_length (lens self))) ->
  GetDepthOfField self focus_distance = raise ValueError.
Proof.
  intros Hne. unfold GetDepthOfField, pq.gt.
  rewrite rescale_mismatch; [reflexivity |].
  simpl. intros Heq. apply Hne. symmetry. exact Heq.
Qed.

Lemma GetDepthOfField_dimension_check_witness :
  GetDepthOfField (test_camera "rectilinear") (pq.mul (pq.of_float 1) pq.radian)
  = raise ValueError.
Proof.
  apply (GetDepthOfField_dimension_check (test_camera "rectilinear")
           (pq.mul (pq.of_float 1) pq.radian)).
  simpl. discriminate.
Defined.

(** ** The diagonal angle of view *)

Section Hypotenuse.

Lemma hypot_bounds (a b : R) :
  0 < a -> 0 < b ->
  a < sqrt (a * a + b * b) /\ b < sqrt (a * a + b * b)
  /\ sqrt (a * a + b * b) < a + b.
Proof.
  intros Ha Hb.
  assert (Haa : 0 < a * a) by (apply Rmult_lt_0_compat; assumption).
  assert (Hbb : 0 < b * b) by (apply Rmult_lt_0_compat; assumption).
  assert (Hab : 0 < a * b) by (apply Rmult_lt_0_compat; assumption).
  split; [| split].
  - rewrite <- (sqrt_square a) at 1 by lra. apply sqrt_lt_1; lra.
  - rewrite <- (sqrt_square b) at 1 by lra. apply sqrt_lt_1; lra.
  - rewrite <- (sqrt_square (a + b)) at 1 by lra. apply sqrt_lt_1; [lra | nra | nra].
Qed.

End Hypotenuse.

(** X23.  With either supported projection and a sensor of positive pixel
    pitch and pixel counts, the diagonal angle of view is the [hypot] of the
    horizontal and the vertical angle, in radians: larger than each of the
    two and smaller than their sum. *)
Theorem GetDiagonalAngleOfView_bounds (self : Camera) (f p : R) :
  projection (lens self) = "rectilinear" \/ projection (lens self) = "equidistant" ->
  is_length (focal_length (lens self)) f -> 0 < f ->
  is_length (pixel_pitch (sensor self)) p -> 0 < p ->
  (0 < width_pixels (sensor self))%Z -> (0 < height_pixels (sensor self))%Z ->
  exists horizontal vertical diagonal a b,
    GetAnglesOfView self = ok (horizontal, vertical)
    /\ GetDiagonalAngleOfView self = ok diagonal
    /\ pq.magnitude horizontal = Fin a /\ pq.magnitude vertical = Fin b
    /\ pq.magnitude diagonal = Fin (sqrt (a * a + b * b))
    /\ pq.dimensionality diagonal = pq.dimensionality pq.radian
    /\ a < sqrt (a * a + b * b) /\ b < sqrt (a * a + b * b)
    /\ sqrt (a * a + b * b) < a + b.
Proof.
  intros Hproj Hf Hpos Hp p_pos Hw Hh.
  apply IZR_lt in Hw, Hh.
  assert (Hshape : forall L x, is_length L x -> 0 < x ->
             exists q a, _GetAngleOfView (lens self) L = ok q
                         /\ pq.magnitude q = Fin a
                         /\ pq.dimensionality q = pq.dimensionality pq.radian
                         /\ 0 < a).
  { intros L x HL Hx. destruct Hproj as [Hproj | Hproj].
    - destruct (rectilinear_shape (lens self) L f x Hproj Hf Hpos HL)
        as [q [f' [r [rf [Heq [Hd [_ [_ [_ [Hm Ha]]]]]]]]]].
      exists q, (2 * atan (x / (2 * f))). split; [exact Heq |].
      split; [rewrite Hm, Ha; reflexivity |]. split; [exact Hd |].
      pose proof (atan_increasing 0 (x / (2 * f))) as Hinc. rewrite atan_0 in Hinc.
      assert (0 < x / (2 * f)) by (apply Rdiv_lt_0_compat; lra). lra.
    - destruct (equidistant_shape (lens self) L f x Hproj Hf Hpos HL) as [q [Heq [Hd Hm]]].
      exists q, (x / f). split; [exact Heq |]. split; [exact Hm |].
      split; [exact Hd |]. apply Rdiv_lt_0_compat; assumption. }
  destruct (Hshape _ _ (sensor_width_is (sensor self) p Hp)) as [w [a [Hweq [Hwm [Hwd Ha]]]]].
  { apply Rmult_lt_0_compat; assumption. }
  destruct (Hshape _ _ (sensor_height_is (sensor self) p Hp)) as [h [b [Hheq [Hhm [Hhd Hb]]]]].
  { apply Rmult_lt_0_compat; assumption. }
  assert (Hangles : GetAnglesOfView self = ok (w, h)).
  { unfold GetAnglesOfView. rewrite Hweq, Hheq. reflexivity. }
  exists w, h, (pq.mkQuantity (Fin (sqrt (a * a + b * b))) (pq.dimensionality pq.radian)), a, b.
  split; [exact Hangles |]. split.
  { unfold GetDiagonalAngleOfView. rewrite Hangles. simpl.
    unfold pq.hypot. rewrite Hwd, Hhd, dim_eqb_refl, Hwm, Hhm. reflexivity. }
  split; [exact Hwm |]. split; [exact Hhm |].
  split; [reflexivity |]. split; [reflexivity |].
  apply hypot_bounds; assumption.
Qed.

Lemma GetDiagonalAngleOfView_bounds_witness :
  exists horizontal vertical diagonal a b,
    GetAnglesOfView (test_camera "rectilinear") = ok (horizontal, vertical)
    /\ GetDiagonalAngleOfView (test_camera "rectilinear") = ok diagonal
    /\ pq.magnitude horizontal = Fin a /\ pq.magnitude vertical = Fin b
    /\ pq.magnitude diagonal = Fin (sqrt (a * a + b * b))
    /\ sqrt (a * a + b * b) < a + b.
Proof.
  pose proof (test_camera_thin_lens "rectilinear") as [_ Hf _ Hp _ _ _].
  destruct (GetDiagonalAngleOfView_bounds (test_camera "rectilinear") (/ 100) (/ 200000)
              (or_introl eq_refl) Hf)
    as [w [h [d [a [b [H1 [H2 [H3 [H4 [H5 [_ [_ [_ H6]]]]]]]]]]]]];
    [lra | exact Hp | lra | reflexivity | reflexivity |].
  exists w, h, d, a, b. repeat (split; [assumption |]). assumption.
Defined.
